(** * The getdata log extractor of util/parse_getdata_log.py

    A shallow embedding of [main]: the loop over the lines of the debug log,
    the four local variables it threads from line to line, and the rows it
    hands to the CSV writer.

    Text is modelled as [string], one [ascii] per code point below 256.
    Python's [None] and a local variable that is not bound yet are both
    [option]; an uncaught exception ends the run and is modelled by [Raise]. *)

From Stdlib Require Import String Ascii List ZArith Lia Bool Sorted.
From Stdlib Require Import DecimalString.
Import ListNotations.
Local Open Scope string_scope.
Local Open Scope Z_scope.

(** ** Text primitives *)

Module Str.

Definition code (c : ascii) : nat := nat_of_ascii c.

(** [str.isspace] on one character: TAB, LF, VT, FF, CR, the four
    separators FS GS RS US, space, NEL and the no-break space. *)
Definition isspace (c : ascii) : bool :=
  let n := code c in
  ((9 <=? n) && (n <=? 13) || (28 <=? n) && (n <=? 32)
   || (n =? 133) || (n =? 160))%nat.

(** [\d] of the [re] module, on this character range. *)
Definition isdigit (c : ascii) : bool :=
  let n := code c in ((48 <=? n) && (n <=? 57))%nat.

Definition is_empty (s : string) : bool :=
  match s with EmptyString => true | String _ _ => false end.

(** [s.lstrip()] *)
Fixpoint lstrip (s : string) : string :=
  match s with
  | EmptyString => EmptyString
  | String c s' => if isspace c then lstrip s' else s
  end.

(** [s.rstrip()] *)
Fixpoint rstrip (s : string) : string :=
  match s with
  | EmptyString => EmptyString
  | String c s' =>
      let r := rstrip s' in
      if is_empty r && isspace c then EmptyString else String c r
  end.

(** [s.strip()] *)
Definition strip (s : string) : string := rstrip (lstrip s).

(** The run of non-space characters at the head of [s], and what follows. *)
Fixpoint break_token (s : string) : string * string :=
  match s with
  | EmptyString => (EmptyString, EmptyString)
  | String c s' =>
      if isspace c then (EmptyString, s)
      else let (tok, rest) := break_token s' in (String c tok, rest)
  end.

(** [s.split(maxsplit=maxcount)]: at most [maxcount] tokens are cut off;
    what is left after them loses its leading white space only, and is
    appended when not empty. *)
Fixpoint split_max (maxcount : nat) (s : string) : list string :=
  let r := lstrip s in
  match maxcount with
  | O => if is_empty r then [] else [r]
  | S n =>
      if is_empty r then []
      else let (tok, rest) := break_token r in tok :: split_max n rest
  end.

(** [s.split()]: no bound on the number of tokens; a string of [n]
    characters holds at most [n] of them. *)
Definition split (s : string) : list string := split_max (String.length s) s.

(** [s.startswith(p)] *)
Definition startswith (s p : string) : bool := String.prefix p s.

(** [s[n:]] *)
Fixpoint drop (n : nat) (s : string) : string :=
  match n, s with
  | O, _ => s
  | S _, EmptyString => EmptyString
  | S n', String _ s' => drop n' s'
  end.

(** [s[:n]] *)
Fixpoint take (n : nat) (s : string) : string :=
  match n, s with
  | O, _ => EmptyString
  | S _, EmptyString => EmptyString
  | S n', String c s' => String c (take n' s')
  end.

(** [str(z)] for an integer: decimal digits, with a minus sign below 0. *)
Definition decimal_Z (z : Z) : string :=
  NilZero.string_of_int (Z.to_int z).

Fixpoint zeros (n : nat) : string :=
  match n with
  | O => EmptyString
  | S n' => String "0" (zeros n')
  end.

(** ["%0<w>d" % n] for [n >= 0]: zeros in front, up to the width [w]. *)
Definition zero_pad (w : nat) (s : string) : string :=
  zeros (w - String.length s) ++ s.

Definition padded (w : nat) (z : Z) : string :=
  zero_pad w (decimal_Z z).

(** [int(s)] on a string of decimal digits. *)
Fixpoint int_acc (acc : Z) (s : string) : Z :=
  match s with
  | EmptyString => acc
  | String c s' => int_acc (10 * acc + Z.of_nat (code c - 48)) s'
  end.

Definition int (s : string) : Z := int_acc 0 (strip s).

End Str.

(** ** Regular expressions, as [re.match] runs them

    A matcher lists every way of matching at the head of the text, in the
    order in which a backtracking engine tries them; [re.match] keeps the
    first one. *)

Module Re.

Definition matcher (A : Type) : Type := string -> list (A * string).

Definition bind {A B} (m : matcher A) (k : A -> matcher B) : matcher B :=
  fun s => flat_map (fun ar => k (fst ar) (snd ar)) (m s).

Definition ret {A} (a : A) : matcher A := fun s => [(a, s)].

(** [p|q] *)
Definition alt {A} (p q : matcher A) : matcher A := fun s => (p s ++ q s)%list.

(** One character of a class. *)
Definition one (cls : ascii -> bool) : matcher string :=
  fun s =>
    match s with
    | String c r => if cls c then [(String c EmptyString, r)] else []
    | EmptyString => []
    end.

(** [pq], keeping the text matched by both. *)
Definition seq (p q : matcher string) : matcher string :=
  bind p (fun a => bind q (fun b => ret (a ++ b))).

Definition lit (c : ascii) : matcher string := one (Ascii.eqb c).

(** [[lo-hi]] *)
Definition range (lo hi : ascii) : matcher string :=
  one (fun c => (Str.code lo <=? Str.code c)%nat
                && (Str.code c <=? Str.code hi)%nat).

(** [\d] *)
Definition digit : matcher string := one Str.isdigit.

(** [\s+], greedy: the longest run of white space first. *)
Fixpoint spaces1 (s : string) : list (string * string) :=
  match s with
  | String c r =>
      if Str.isspace c
      then (map (fun mr => (String c (fst mr), snd mr)) (spaces1 r)
            ++ [(String c EmptyString, r)])%list
      else []
  | EmptyString => []
  end.

(** [re.match(p, s)]: the first match, if any. *)
Definition re_match {A} (p : matcher A) (s : string) : option (A * string) :=
  hd_error (p s).

End Re.

(** ** The parts of [datetime] that [main] uses *)

Module datetime.

Import Re.

Record t : Type := mk {
  year : Z; month : Z; day : Z; hour : Z; minute : Z; second : Z
}.
(* The microsecond field is left out: the format has no [%f], so it is 0
   in every value that [strptime] builds here. *)

Definition MINYEAR : Z := 1.
Definition MAXYEAR : Z := 9999.

Definition is_leap (y : Z) : bool :=
  (y mod 4 =? 0) && (negb (y mod 100 =? 0) || (y mod 400 =? 0)).

Definition DAYS_IN_MONTH : list Z :=
  [-1; 31; 28; 31; 30; 31; 30; 31; 31; 30; 31; 30; 31].

Definition DAYS_BEFORE_MONTH : list Z :=
  [-1; 0; 31; 59; 90; 120; 151; 181; 212; 243; 273; 304; 334].

Definition days_before_year (y : Z) : Z :=
  let y := y - 1 in y * 365 + y / 4 - y / 100 + y / 400.

Definition days_in_month (y m : Z) : Z :=
  if (m =? 2) && is_leap y then 29
  else nth (Z.to_nat m) DAYS_IN_MONTH 0.

Definition days_before_month (y m : Z) : Z :=
  nth (Z.to_nat m) DAYS_BEFORE_MONTH 0
  + (if (2 <? m) && is_leap y then 1 else 0).

Definition ymd2ord (y m d : Z) : Z :=
  days_before_year y + days_before_month y m + d.

Definition check_date_fields (y m d : Z) : bool :=
  (MINYEAR <=? y) && (y <=? MAXYEAR) && (1 <=? m) && (m <=? 12)
  && (1 <=? d) && (d <=? days_in_month y m).

Definition check_time_fields (h mi s : Z) : bool :=
  (0 <=? h) && (h <=? 23) && (0 <=? mi) && (mi <=? 59)
  && (0 <=? s) && (s <=? 59).

(** The regular expressions that [_strptime] substitutes for the
    directives of the format. *)
Definition re_Y : matcher string := seq digit (seq digit (seq digit digit)).
Definition re_m : matcher string :=
  alt (seq (lit "1") (range "0" "2"))
    (alt (seq (lit "0") (range "1" "9")) (range "1" "9")).
Definition re_d : matcher string :=
  alt (seq (lit "3") (range "0" "1"))
    (alt (seq (range "1" "2") digit)
      (alt (seq (lit "0") (range "1" "9"))
        (alt (range "1" "9") (seq (lit " ") (range "1" "9"))))).
Definition re_H : matcher string :=
  alt (seq (lit "2") (range "0" "3"))
    (alt (seq (range "0" "1") digit) digit).
Definition re_M : matcher string :=
  alt (seq (range "0" "5") digit) digit.
Definition re_S : matcher string :=
  alt (seq (lit "6") (range "0" "1"))
    (alt (seq (range "0" "5") digit) digit).

(** The compiled format ["%Y/%m/%d %H:%M:%S"]; the blank of the format
    stands for [\s+]. The groups come out in the order Y, m, d, H, M, S. *)
Definition format_regex : matcher (list string) :=
  bind re_Y (fun gY => bind (lit "/") (fun _ =>
  bind re_m (fun gm => bind (lit "/") (fun _ =>
  bind re_d (fun gd => bind spaces1 (fun _ =>
  bind re_H (fun gH => bind (lit ":") (fun _ =>
  bind re_M (fun gM => bind (lit ":") (fun _ =>
  bind re_S (fun gS => ret [gY; gm; gd; gH; gM; gS]))))))))))).

(** [datetime.datetime.strptime(data_string, "%Y/%m/%d %H:%M:%S")];
    [None] stands for the [ValueError] of every failure: no match, text
    left over after the match, a date or a time out of range. *)
Definition strptime (data_string : string) : option t :=
  match re_match format_regex data_string with
  | Some ([gY; gm; gd; gH; gM; gS], rest) =>
      if negb (Str.is_empty rest) then None
      else
        let y := Str.int gY in let m := Str.int gm in
        let d := Str.int gd in let h := Str.int gH in
        let mi := Str.int gM in let s := Str.int gS in
        if check_date_fields y m d && check_time_fields h mi s
        then Some (mk y m d h mi s)
        else None
  | _ => None
  end.

(** [dt.toordinal()] *)
Definition toordinal (dt : t) : Z := ymd2ord (year dt) (month dt) (day dt).

(** A [timedelta], normalised as its constructor does: the seconds lie
    in [0, 86400) and the days carry the rest. *)
Record timedelta : Type := mk_delta { days : Z; seconds : Z }.

Definition new_timedelta (d s : Z) : timedelta :=
  mk_delta (d + s / 86400) (s mod 86400).

(** [a - b] on two datetimes. *)
Definition sub (a b : t) : timedelta :=
  let days1 := toordinal a in
  let days2 := toordinal b in
  let secs1 := second a + minute a * 60 + hour a * 3600 in
  let secs2 := second b + minute b * 60 + hour b * 3600 in
  new_timedelta (days1 - days2) (secs1 - secs2).

(** [td.total_seconds()]. The float it returns is a whole number here,
    far below 2^53, so it is kept as the integer it equals. *)
Definition total_seconds (td : timedelta) : Z :=
  days td * 86400 + seconds td.

(** [str(x)] for a float [x] that is a whole number below 10^16 in
    absolute value: the digits, then [.0]. *)
Definition str_float (x : Z) : string := Str.decimal_Z x ++ ".0".

(** [dt.strftime("%Y-%m-%d %H:%M:%S")]. The month, day, hour, minute and
    second have two digits; the year is written as the number it is, so
    with fewer than four digits below the year 1000 (999-01-15, 1-01-01). *)
Definition strftime (dt : t) : string :=
  Str.decimal_Z (year dt) ++ "-" ++ Str.padded 2 (month dt) ++ "-"
  ++ Str.padded 2 (day dt) ++ " " ++ Str.padded 2 (hour dt) ++ ":"
  ++ Str.padded 2 (minute dt) ++ ":" ++ Str.padded 2 (second dt).

(** The values that the constructor of [datetime] accepts. *)
Definition valid (dt : t) : Prop :=
  check_date_fields (year dt) (month dt) (day dt) = true
  /\ check_time_fields (hour dt) (minute dt) (second dt) = true.

(** Seconds since the midnight that starts ordinal day 0. *)
Definition abs_seconds (dt : t) : Z :=
  toordinal dt * 86400 + hour dt * 3600 + minute dt * 60 + second dt.

End datetime.

(** ** The CSV writer, with the defaults of [csv.writer]

    Delimiter [,], quote character 034, doubled inside a quoted field,
    minimal quoting, rows ended by CR LF. *)

Module csv.

Definition quotechar : ascii := "034"%char.
Definition delimiter : ascii := ","%char.
Definition lineterminator : string :=
  String "013"%char (String "010"%char EmptyString).

Definition special (c : ascii) : bool :=
  Ascii.eqb c delimiter || Ascii.eqb c quotechar
  || Ascii.eqb c "013"%char || Ascii.eqb c "010"%char.

Fixpoint has_special (f : string) : bool :=
  match f with
  | EmptyString => false
  | String c r => special c || has_special r
  end.

Fixpoint double_quotes (f : string) : string :=
  match f with
  | EmptyString => EmptyString
  | String c r =>
      if Ascii.eqb c quotechar
      then String c (String c (double_quotes r))
      else String c (double_quotes r)
  end.

Definition field (f : string) : string :=
  if has_special f
  then String quotechar (double_quotes f ++ String quotechar EmptyString)
  else f.

Fixpoint join (fields : list string) : string :=
  match fields with
  | [] => EmptyString
  | [f] => field f
  | f :: rest => field f ++ String delimiter (join rest)
  end.

(** The text that [csvw.writerow(fields)] writes, for two fields or more. *)
Definition writerow (fields : list string) : string :=
  join fields ++ lineterminator.

End csv.

(** ** The loop of [main] *)

(** The local variables that live from one line to the next. [datacenter]
    is [None] where Python has [None]; [starttime] and [request] are [None]
    until their first assignment. *)
Record state : Type := mkState {
  datacenter : option string;
  filename : string;
  starttime : option datetime.t;
  request : option string
}.

(** The state on entry to the loop (lines 15-16). *)
Definition init : state := mkState None EmptyString None None.

Inductive exn : Type := IndexError | ValueError | UnboundLocalError.

(** What one pass through the loop body does: it goes on with a new state,
    having written a row or not, or it raises. *)
Inductive outcome : Type :=
| Continue (s : state) (written : option (list string))
| Raise (e : exn).

(** The header row (line 14). *)
Definition header : list string :=
  Str.split "datetime datacenter request filename status seconds".

(** The loop body (lines 18-40) on one [record] of the log. *)
Definition step (s : state) (record : string) : outcome :=
  let parts := Str.split_max 2 record in
  if (List.length parts <? 3)%nat then Continue s None
  else
    match parts with
    | [rdate; rtime; message] =>
        match datetime.strptime (rdate ++ " " ++ rtime) with
        | None => Continue s None
        | Some logtime =>
            if Str.startswith message "Running getData" then
              let parts := Str.split message in
              match nth_error parts 3 with
              | None => Raise IndexError
              | Some dc =>
                  match nth_error parts 8 with
                  | None => Raise IndexError
                  | Some rq =>
                      Continue (mkState (Some dc) (filename s)
                                  (Some logtime) (Some rq)) None
                  end
              end
            else if Str.startswith message "Retrieving file " then
              Continue (mkState (datacenter s)
                          (Str.strip (Str.drop 16 message))
                          (starttime s) (request s)) None
            else if Str.startswith message "Returning status" then
              let parts := Str.split message in
              match nth_error parts 2 with
              | None => Raise IndexError
              | Some tok =>
                  let status := Str.take 4 tok in
                  match datacenter s with
                  | None => Continue s None
                  | Some dc =>
                      match starttime s, request s with
                      | Some st, Some rq =>
                          let seconds :=
                            datetime.str_float
                              (datetime.total_seconds (datetime.sub logtime st))
                          in
                          Continue (mkState None EmptyString
                                      (starttime s) (request s))
                            (Some [datetime.strftime st; dc; rq;
                                   filename s; status; seconds])
                      | _, _ => Raise UnboundLocalError
                      end
                  end
              end
            else Continue s None
        end
    | _ => Raise ValueError
    end.

(** The [for] loop from state [s] over the lines [logh]: the rows written,
    in order, and how the loop ends, in a state or with the exception that
    stops it. *)
Fixpoint run (s : state) (logh : list string)
  : list (list string) * (state + exn) :=
  match logh with
  | [] => ([], inl s)
  | record :: rest =>
      match step s record with
      | Raise e => ([], inr e)
      | Continue s' written =>
          let (rows, fin) := run s' rest in
          (match written with Some r => r :: rows | None => rows end, fin)
      end
  end.

(** [main] on the lines of the log: the rows handed to the writer, header
    first, and the exception the program dies of, if any. *)
Definition main (logh : list string) : list (list string) * option exn :=
  let (rows, fin) := run init logh in
  (header :: rows, match fin with inl _ => None | inr e => Some e end).

(** The text of the CSV file that [main] leaves behind. *)
Definition csv_text (written : list (list string)) : string :=
  String.concat EmptyString (map csv.writerow written).

(** *** Reading a line the way the loop body does *)

(** Lines 18-25: the time stamp and the message of a record, or [None]
    for a record that the loop passes over. *)
Definition log_entry (record : string) : option (datetime.t * string) :=
  match Str.split_max 2 record with
  | [rdate; rtime; message] =>
      match datetime.strptime (rdate ++ " " ++ rtime) with
      | Some logtime => Some (logtime, message)
      | None => None
      end
  | _ => None
  end.

Inductive marker : Type := StartMarker | FileMarker | CompletionMarker | NoMarker.

(** The branch of the [if]/[elif] chain (lines 26, 31, 33) that a message
    takes. *)
Definition marker_of (message : string) : marker :=
  if Str.startswith message "Running getData" then StartMarker
  else if Str.startswith message "Retrieving file " then FileMarker
  else if Str.startswith message "Returning status" then CompletionMarker
  else NoMarker.

(** The marker of a whole record; a record that is passed over has none. *)
Definition kind (record : string) : marker :=
  match log_entry record with
  | Some (_, message) => marker_of message
  | None => NoMarker
  end.

(** The time stamp of a record, when it has one. *)
Definition logtime_of (record : string) : option datetime.t :=
  option_map fst (log_entry record).

(** The time stamp of the last start marker among [logh]. *)
Fixpoint last_start (acc : option datetime.t) (logh : list string)
  : option datetime.t :=
  match logh with
  | [] => acc
  | record :: rest =>
      last_start (match kind record with
                  | StartMarker => logtime_of record
                  | _ => acc
                  end) rest
  end.

(** The time stamps of the records that have one, as seconds, in order. *)
Definition timeline (logh : list string) : list Z :=
  flat_map (fun record =>
              match logtime_of record with
              | Some t => [datetime.abs_seconds t]
              | None => []
              end) logh.

(** What the body does once a record has given a time stamp and a message
    (lines 26-40). *)
Definition on_entry (s : state) (logtime : datetime.t) (message : string)
  : outcome :=
  match marker_of message with
  | StartMarker =>
      match nth_error (Str.split message) 3 with
      | None => Raise IndexError
      | Some dc =>
          match nth_error (Str.split message) 8 with
          | None => Raise IndexError
          | Some rq =>
              Continue (mkState (Some dc) (filename s) (Some logtime) (Some rq))
                None
          end
      end
  | FileMarker =>
      Continue (mkState (datacenter s) (Str.strip (Str.drop 16 message))
                  (starttime s) (request s)) None
  | CompletionMarker =>
      match nth_error (Str.split message) 2 with
      | None => Raise IndexError
      | Some tok =>
          match datacenter s with
          | None => Continue s None
          | Some dc =>
              match starttime s, request s with
              | Some st, Some rq =>
                  Continue (mkState None EmptyString (starttime s) (request s))
                    (Some [datetime.strftime st; dc; rq; filename s;
                           Str.take 4 tok;
                           datetime.str_float
                             (datetime.total_seconds (datetime.sub logtime st))])
              | _, _ => Raise UnboundLocalError
              end
          end
      end
  | NoMarker => Continue s None
  end.

(** [starttime] and [request] are read only under [datacenter is not None];
    a state is [bound] when they are bound by then. *)
Definition bound (s : state) : Prop :=
  datacenter s <> None -> starttime s <> None /\ request s <> None.

(** The states that the loop of [main] can be in. *)
Definition reachable (s : state) : Prop :=
  exists logh rows, run init logh = (rows, inl s).


Definition marker_eqb (a b : marker) : bool :=
  match a, b with
  | StartMarker, StartMarker | FileMarker, FileMarker
  | CompletionMarker, CompletionMarker | NoMarker, NoMarker => true
  | _, _ => false
  end.

(** How many records of [logh] carry the marker [k]. *)
Definition count_kind (k : marker) (logh : list string) : nat :=
  List.length (filter (fun record => marker_eqb (kind record) k) logh).

(** A record that neither starts nor completes a request. *)
Definition quiet (record : string) : Prop :=
  kind record = FileMarker \/ kind record = NoMarker.

(** *** What the rows and the log are made of *)

(** No white space anywhere in the text. *)
Fixpoint no_space (t : string) : bool :=
  match t with
  | EmptyString => true
  | String c r => negb (Str.isspace c) && no_space r
  end.

(** A token, as [split] cuts them: not empty, no white space inside. *)
Definition is_token (t : string) : bool := negb (Str.is_empty t) && no_space t.


(** The name given by the last file marker among [logh], [acc] when there
    is none. *)
Fixpoint last_file (acc : string) (logh : list string) : string :=
  match logh with
  | [] => acc
  | record :: rest =>
      last_file (match log_entry record with
                 | Some (_, message) =>
                     match marker_of message with
                     | FileMarker => Str.strip (Str.drop 16 message)
                     | _ => acc
                     end
                 | None => acc
                 end) rest
  end.

(** A text that follows a pattern, character by character. *)
Fixpoint matches (pattern : list (ascii -> bool)) (t : string) : bool :=
  match pattern, t with
  | [], EmptyString => true
  | p :: pattern', String c r => p c && matches pattern' r
  | _, _ => false
  end.

Definition digits (n : nat) : list (ascii -> bool) := repeat Str.isdigit n.

(** The pattern dddd-dd-dd dd:dd:dd of the first field of a row. *)
Definition timestamp_pattern : list (ascii -> bool) :=
  (digits 4 ++ [Ascii.eqb "-"] ++ digits 2 ++ [Ascii.eqb "-"] ++ digits 2
   ++ [Ascii.eqb " "] ++ digits 2 ++ [Ascii.eqb ":"] ++ digits 2
   ++ [Ascii.eqb ":"] ++ digits 2)%list.

(** A whole request in the log: a start marker with its tokens, records
    that neither start nor complete a request, a completion marker with its
    status token. *)
Definition request_block (lines : list string) : Prop :=
  exists a mid c tA mA dc rq tC mC tok,
    lines = a :: (mid ++ [c])%list
    /\ log_entry a = Some (tA, mA) /\ marker_of mA = StartMarker
    /\ nth_error (Str.split mA) 3 = Some dc
    /\ nth_error (Str.split mA) 8 = Some rq
    /\ Forall quiet mid
    /\ log_entry c = Some (tC, mC) /\ marker_of mC = CompletionMarker
    /\ nth_error (Str.split mC) 2 = Some tok.

(** The records dated from the year 1000 on, and those without a date. *)
Definition four_digit_year (record : string) : Prop :=
  forall t, logtime_of record = Some t -> 1000 <= datetime.year t.

(** Nothing but white space in the text. *)
Fixpoint all_space (t : string) : bool :=
  match t with
  | EmptyString => true
  | String c r => Str.isspace c && all_space r
  end.

(** *** Sample records *)

Definition LF : string := String "010"%char EmptyString.

(** The three lines of Scenario A, as a file iterator yields them. *)
Definition scenario_A : list string :=
  [ "2024/01/15 10:00:00 Running getData req from site DC1 to node X for REQ123 now" ++ LF;
    "2024/01/15 10:00:02 Retrieving file /data/abc.dat" ++ LF;
    "2024/01/15 10:00:05 Returning status 2000 OK" ++ LF ].

Definition line_start_A : string :=
  "2024/01/15 10:00:00 Running getData for DCA file type obs request REQ_A" ++ LF.
Definition line_start_B : string :=
  "2024/01/15 10:00:03 Running getData for DCB file type obs request REQ_B" ++ LF.
Definition line_file : string :=
  "2024/01/15 09:59:58 Retrieving file /old/stale.dat" ++ LF.
Definition line_done : string :=
  "2024/01/15 10:00:07 Returning status 2000 OK" ++ LF.
Definition line_done_early : string :=
  "2024/01/15 09:59:59 Returning status 4040 NONE" ++ LF.
Definition line_start_999 : string :=
  "0999/01/15 10:00:00 Running getData for DCA file type obs request REQ_A"
  ++ LF.
Definition line_done_999 : string :=
  "0999/01/15 10:00:07 Returning status 2000 OK" ++ LF.
Definition line_short_start : string :=
  "2024/01/15 10:00:00 Running getData for DCA" ++ LF.
Definition line_short_done : string :=
  "2024/01/15 10:00:07 Returning status" ++ LF.
Definition line_noise : string := "--- log rotated ---" ++ LF.
Definition line_bad_date : string :=
  "2024/02/30 10:00:07 Returning status 2000 OK" ++ LF.

(** * Properties *)

(** ** The loop body, branch by branch *)

Lemma split_max_length (n : nat) (s : string) :
  (List.length (Str.split_max n s) <= S n)%nat.
Proof.
  revert s; induction n as [|n IH]; intros s; simpl.
  - destruct (Str.is_empty (Str.lstrip s)); simpl; lia.
  - destruct (Str.is_empty (Str.lstrip s)); simpl; [lia|].
    destruct (Str.break_token (Str.lstrip s)) as [tok rest]; simpl.
    specialize (IH rest); lia.
Qed.

(** *** [split] never runs out of tokens to cut *)

Lemma lstrip_length (s : string) :
  (String.length (Str.lstrip s) <= String.length s)%nat.
Proof.
  induction s as [|c s IH]; simpl; [lia|].
  destruct (Str.isspace c); simpl; lia.
Qed.

Lemma lstrip_head (s : string) c r :
  Str.lstrip s = String c r -> Str.isspace c = false.
Proof.
  induction s as [|a s IH]; simpl; [discriminate|].
  destruct (Str.isspace a) eqn:Ha; [exact IH|].
  now intros [= <- _].
Qed.

Lemma break_token_length (s : string) :
  (String.length (snd (Str.break_token s)) <= String.length s)%nat.
Proof.
  induction s as [|c s IH]; simpl; [lia|].
  destruct (Str.isspace c); simpl; [lia|].
  destruct (Str.break_token s); simpl in *; lia.
Qed.

Lemma split_max_fuel (n : nat) :
  forall m s,
    (String.length s <= n)%nat -> (String.length s <= m)%nat ->
    Str.split_max n s = Str.split_max m s.
Proof.
  induction n as [|n IH]; intros m s Hn Hm.
  - destruct s; [|simpl in Hn; lia]; now destruct m.
  - destruct m as [|m]; [destruct s; [reflexivity|simpl in Hm; lia]|].
    simpl.
    pose proof (lstrip_length s) as Hl.
    destruct (Str.lstrip s) as [|c r] eqn:Hr; [reflexivity|].
    pose proof (lstrip_head s c r Hr) as Hc.
    simpl Str.is_empty; cbv iota.
    pose proof (break_token_length r) as Hb.
    simpl Str.break_token; rewrite Hc.
    destruct (Str.break_token r) as [tok rest]; simpl in Hb, Hl.
    f_equal; apply IH; lia.
Qed.

(** More fuel than the length of the text changes nothing in [split]. *)
Lemma split_fuel_enough (n : nat) (s : string) :
  (String.length s <= n)%nat -> Str.split_max n s = Str.split s.
Proof. intros H; unfold Str.split; apply split_max_fuel; lia. Qed.

(** [step] is: read the record, pass over it or act on its message. The
    unpacking of line 21 never fails, [split] with [maxsplit=2] giving three
    parts at most. *)
Lemma step_unfold (s : state) (record : string) :
  step s record =
  match log_entry record with
  | None => Continue s None
  | Some (logtime, message) => on_entry s logtime message
  end.
Proof.
  unfold step, log_entry, on_entry, marker_of.
  pose proof (split_max_length 2 record) as Hlen.
  destruct (Str.split_max 2 record) as [|a [|b [|c [|d l]]]];
    simpl in Hlen; try lia; cbn [List.length Nat.ltb Nat.leb];
    try reflexivity.
  destruct (datetime.strptime (a ++ " " ++ b)) as [logtime|]; [|reflexivity].
  destruct (Str.startswith c "Running getData"); [reflexivity|].
  destruct (Str.startswith c "Retrieving file "); [reflexivity|].
  destruct (Str.startswith c "Returning status"); reflexivity.
Qed.

Lemma step_skip (s : state) (record : string) :
  log_entry record = None -> step s record = Continue s None.
Proof. intros H; rewrite step_unfold, H; reflexivity. Qed.

Lemma step_entry (s : state) (record : string) logtime message :
  log_entry record = Some (logtime, message) ->
  step s record = on_entry s logtime message.
Proof. intros H; rewrite step_unfold, H; reflexivity. Qed.

(** A record without a marker changes nothing. *)
Lemma step_no_marker (s : state) (record : string) :
  kind record = NoMarker -> step s record = Continue s None.
Proof.
  unfold kind; rewrite step_unfold.
  destruct (log_entry record) as [[logtime message]|]; [|reflexivity].
  unfold on_entry; intros ->; reflexivity.
Qed.

(** ** Time differences *)

Lemma total_seconds_sub (a b : datetime.t) :
  datetime.total_seconds (datetime.sub a b)
  = datetime.abs_seconds a - datetime.abs_seconds b.
Proof.
  unfold datetime.total_seconds, datetime.sub, datetime.new_timedelta,
    datetime.abs_seconds; simpl.
  set (d := datetime.toordinal a - datetime.toordinal b).
  set (x := datetime.second a + datetime.minute a * 60 + datetime.hour a * 3600
            - (datetime.second b + datetime.minute b * 60
               + datetime.hour b * 3600)).
  pose proof (Z.div_mod x 86400 ltac:(lia)) as Hx.
  subst d; lia.
Qed.

(** ** Time stamps are dates of the calendar *)

Lemma strptime_valid (data_string : string) (dt : datetime.t) :
  datetime.strptime data_string = Some dt -> datetime.valid dt.
Proof.
  unfold datetime.strptime.
  destruct (Re.re_match datetime.format_regex data_string)
    as [[groups rest]|]; [|discriminate].
  destruct groups as [|gY [|gm [|gd [|gH [|gM [|gS [|x l]]]]]]];
    try discriminate.
  destruct (negb (Str.is_empty rest)); [discriminate|].
  destruct (datetime.check_date_fields _ _ _
            && datetime.check_time_fields _ _ _) eqn:H; [|discriminate].
  intros [= <-]; apply andb_prop in H; exact H.
Qed.

Lemma log_entry_valid (record : string) logtime message :
  log_entry record = Some (logtime, message) -> datetime.valid logtime.
Proof.
  unfold log_entry.
  destruct (Str.split_max 2 record) as [|a [|b [|c [|d l]]]];
    try discriminate.
  destruct (datetime.strptime (a ++ " " ++ b)) as [t|] eqn:Ht;
    [|discriminate].
  intros [= <- _]; exact (strptime_valid _ _ Ht).
Qed.

Lemma month_cases (m : Z) :
  1 <= m <= 12 -> In m [1; 2; 3; 4; 5; 6; 7; 8; 9; 10; 11; 12].
Proof. intros H; simpl; lia. Qed.

Lemma days_before_year_range (y : Z) :
  1 <= y <= 9999 -> 0 <= datetime.days_before_year y <= 3651695.
Proof.
  intros H; unfold datetime.days_before_year.
  pose proof (Z.div_mod (y - 1) 4 ltac:(lia)).
  pose proof (Z.mod_pos_bound (y - 1) 4 ltac:(lia)).
  pose proof (Z.div_mod (y - 1) 100 ltac:(lia)).
  pose proof (Z.mod_pos_bound (y - 1) 100 ltac:(lia)).
  pose proof (Z.div_mod (y - 1) 400 ltac:(lia)).
  pose proof (Z.mod_pos_bound (y - 1) 400 ltac:(lia)).
  lia.
Qed.

Lemma toordinal_range (dt : datetime.t) :
  datetime.valid dt -> 1 <= datetime.toordinal dt <= 3652061.
Proof.
  destruct dt as [y m d h mi sc]; intros [Hd _]; simpl in Hd.
  unfold datetime.check_date_fields, datetime.MINYEAR, datetime.MAXYEAR in Hd.
  repeat (apply andb_prop in Hd; destruct Hd as [Hd ?]).
  unfold datetime.toordinal, datetime.ymd2ord, datetime.days_before_month;
    simpl.
  pose proof (days_before_year_range y ltac:(lia)) as Hy.
  unfold datetime.days_in_month in *.
  pose proof (month_cases m ltac:(lia)) as Hm.
  destruct (datetime.is_leap y); simpl in Hm;
    repeat (destruct Hm as [Hm | Hm]; [subst m; simpl in *; lia|]);
    contradiction.
Qed.

Lemma abs_seconds_range (dt : datetime.t) :
  datetime.valid dt -> 86400 <= datetime.abs_seconds dt < 3652062 * 86400.
Proof.
  intros Hv; pose proof (toordinal_range dt Hv) as Ho.
  destruct Hv as [_ Ht]; unfold datetime.check_time_fields in Ht.
  repeat (apply andb_prop in Ht; destruct Ht as [Ht ?]).
  unfold datetime.abs_seconds; lia.
Qed.

(** The difference of two time stamps is a whole number of seconds that a
    float holds exactly, and that [str] prints without an exponent. *)
Lemma elapsed_fits_float (a b : datetime.t) :
  datetime.valid a -> datetime.valid b ->
  Z.abs (datetime.abs_seconds a - datetime.abs_seconds b) < 2 ^ 53
  /\ Z.abs (datetime.abs_seconds a - datetime.abs_seconds b) < 10 ^ 16.
Proof.
  intros Ha Hb.
  pose proof (abs_seconds_range a Ha); pose proof (abs_seconds_range b Hb).
  change (2 ^ 53) with 9007199254740992.
  change (10 ^ 16) with 10000000000000000.
  lia.
Qed.

(** ** The text of a time stamp *)

Lemma matches_app (p1 p2 : list (ascii -> bool)) :
  forall t1 t2,
    matches p1 t1 = true -> matches p2 t2 = true ->
    matches (p1 ++ p2) (t1 ++ t2) = true.
Proof.
  induction p1 as [|p p1 IH]; intros [|c t1] t2; simpl; try discriminate.
  - now intros _ H.
  - intros H1 H2; apply andb_prop in H1; destruct H1 as [Hp H1].
    now rewrite Hp, (IH t1 t2 H1 H2).
Qed.

Lemma rendered_digits (f : Z -> string) (w : nat) (lo len : nat) :
  forallb (fun n => matches (digits w) (f (Z.of_nat n))) (seq lo len) = true ->
  forall z, Z.of_nat lo <= z < Z.of_nat (lo + len) ->
            matches (digits w) (f z) = true.
Proof.
  intros H z Hz; rewrite forallb_forall in H.
  rewrite <- (Z2Nat.id z) by lia.
  apply H, in_seq; lia.
Qed.

Lemma padded_two_digits (z : Z) :
  0 <= z < 100 -> matches (digits 2) (Str.padded 2 z) = true.
Proof.
  intros H; apply (rendered_digits (Str.padded 2) 2 0 100);
    [vm_compute; reflexivity|].
  simpl; lia.
Qed.

Lemma year_four_digits (z : Z) :
  1000 <= z < 10000 -> matches (digits 4) (Str.decimal_Z z) = true.
Proof.
  intros H.
  apply (rendered_digits Str.decimal_Z 4 (Z.to_nat 1000) (Z.to_nat 9000));
    [vm_compute; reflexivity|lia].
Qed.

Lemma days_in_month_le (y m : Z) :
  1 <= m <= 12 -> 28 <= datetime.days_in_month y m <= 31.
Proof.
  intros H; unfold datetime.days_in_month.
  pose proof (month_cases m H) as Hm.
  destruct (datetime.is_leap y); simpl in Hm;
    repeat (destruct Hm as [Hm | Hm]; [subst m; simpl; lia|]);
    contradiction.
Qed.

(** The text of a valid date and time, from the year 1000 on, is
    dddd-dd-dd dd:dd:dd. *)
Lemma strftime_shape (dt : datetime.t) :
  datetime.valid dt -> 1000 <= datetime.year dt ->
  matches timestamp_pattern (datetime.strftime dt) = true.
Proof.
  destruct dt as [y m d h mi sc]; intros [Hd Ht] Hy; simpl in Hd, Ht, Hy.
  unfold datetime.check_date_fields, datetime.MINYEAR, datetime.MAXYEAR in Hd.
  unfold datetime.check_time_fields in Ht.
  repeat (apply andb_prop in Hd; destruct Hd as [Hd ?]).
  repeat (apply andb_prop in Ht; destruct Ht as [Ht ?]).
  pose proof (days_in_month_le y m ltac:(lia)) as Hdim.
  unfold timestamp_pattern, datetime.strftime; simpl datetime.year;
    simpl datetime.month; simpl datetime.day; simpl datetime.hour;
    simpl datetime.minute; simpl datetime.second.
  repeat (apply matches_app;
          [first [apply year_four_digits; lia
                 |apply padded_two_digits; lia
                 |reflexivity]|]).
  apply padded_two_digits; lia.
Qed.

(** ** Bound variables *)

Lemma bound_init : bound init.
Proof. intros H; exfalso; apply H; reflexivity. Qed.

Lemma step_bound (s s' : state) (record : string) written :
  bound s -> step s record = Continue s' written -> bound s'.
Proof.
  intros Hb; rewrite step_unfold.
  destruct (log_entry record) as [[logtime message]|];
    [|intros [= <- _]; exact Hb].
  unfold on_entry.
  destruct (marker_of message).
  - destruct (nth_error (Str.split message) 3); [|discriminate].
    destruct (nth_error (Str.split message) 8); [|discriminate].
    intros [= <- _]; intros _; simpl; split; discriminate.
  - intros [= <- _]; exact Hb.
  - destruct (nth_error (Str.split message) 2); [|discriminate].
    destruct (datacenter s) eqn:Hd; [|intros [= <- _]; exact Hb].
    destruct (starttime s), (request s); try discriminate.
    intros [= <- _]; intros H; simpl in H; congruence.
  - intros [= <- _]; exact Hb.
Qed.

Lemma run_cons (s : state) (record : string) (rest : list string) :
  run s (record :: rest) =
  match step s record with
  | Raise e => ([], inr e)
  | Continue s' written =>
      (match written with Some r => r :: fst (run s' rest)
                     | None => fst (run s' rest) end,
       snd (run s' rest))
  end.
Proof.
  simpl; destruct (step s record) as [s' w|e]; [|reflexivity].
  destruct (run s' rest); reflexivity.
Qed.

Lemma run_bound (logh : list string) :
  forall s rows s', bound s -> run s logh = (rows, inl s') -> bound s'.
Proof.
  induction logh as [|record rest IH]; intros s rows s' Hb.
  - simpl; intros [= _ <-]; exact Hb.
  - rewrite run_cons.
    destruct (step s record) as [s1 w|e] eqn:Hs; [|discriminate].
    intros H.
    apply (IH s1 (fst (run s1 rest)) s' (step_bound _ _ _ _ Hb Hs)).
    rewrite (surjective_pairing (run s1 rest)); f_equal.
    now inversion H.
Qed.

Lemma reachable_bound (s : state) : reachable s -> bound s.
Proof. intros (logh & rows & H); exact (run_bound logh _ _ _ bound_init H). Qed.

(** ** The start time along a run *)

Lemma step_starttime (s s' : state) (record : string) written :
  step s record = Continue s' written ->
  starttime s'
  = match kind record with
    | StartMarker => logtime_of record
    | _ => starttime s
    end.
Proof.
  rewrite step_unfold; unfold kind, logtime_of.
  destruct (log_entry record) as [[logtime message]|]; [|now intros [= <- _]].
  unfold on_entry; cbn [option_map fst].
  destruct (marker_of message).
  - destruct (nth_error (Str.split message) 3); [|discriminate].
    destruct (nth_error (Str.split message) 8); [|discriminate].
    now intros [= <- _].
  - now intros [= <- _].
  - destruct (nth_error (Str.split message) 2); [|discriminate].
    destruct (datacenter s); [|now intros [= <- _]].
    destruct (starttime s), (request s); try discriminate.
    now intros [= <- _].
  - now intros [= <- _].
Qed.

(** [starttime] is the time stamp of the last start marker read. *)
Lemma run_starttime (pre : list string) :
  forall s rows s',
    run s pre = (rows, inl s') ->
    starttime s' = last_start (starttime s) pre.
Proof.
  induction pre as [|record rest IH]; intros s rows s'.
  - simpl; now intros [= _ <-].
  - rewrite run_cons.
    destruct (step s record) as [s1 w|e] eqn:Hs; [|discriminate].
    intros H; simpl.
    rewrite <- (step_starttime s s1 record w Hs).
    apply (IH s1 (fst (run s1 rest))).
    rewrite (surjective_pairing (run s1 rest)) at 1; f_equal.
    now inversion H.
Qed.

Lemma last_start_valid (pre : list string) :
  forall acc ts,
    last_start acc pre = Some ts ->
    acc = Some ts \/ datetime.valid ts.
Proof.
  induction pre as [|record rest IH]; intros acc ts; simpl.
  - now left.
  - intros H; apply IH in H.
    destruct H as [H | H]; [|now right].
    destruct (kind record); auto.
    right; unfold logtime_of in H.
    destruct (log_entry record) as [[t m]|] eqn:He; [|discriminate].
    injection H as <-; exact (log_entry_valid record t m He).
Qed.

(** The start time of a state that [main] reaches is a valid date. *)
Lemma reachable_starttime_valid (s : state) st :
  reachable s -> starttime s = Some st -> datetime.valid st.
Proof.
  intros (logh & rows & Hrun) Hst.
  pose proof (run_starttime logh init rows s Hrun) as H.
  rewrite Hst in H; simpl in H.
  destruct (last_start_valid logh None st (eq_sym H)) as [H0 | H0];
    [discriminate|exact H0].
Qed.

(** ** Runs *)

Lemma run_skip_head (s : state) (record : string) (rest : list string) :
  step s record = Continue s None -> run s (record :: rest) = run s rest.
Proof.
  intros H; rewrite run_cons, H; simpl; symmetry; apply surjective_pairing.
Qed.

Lemma run_raise_head (s : state) (record : string) (rest : list string) e :
  step s record = Raise e -> run s (record :: rest) = ([], inr e).
Proof. intros H; rewrite run_cons, H; reflexivity. Qed.

Lemma run_app (l1 : list string) :
  forall s l2 rows s1,
    run s l1 = (rows, inl s1) ->
    run s (l1 ++ l2) = ((rows ++ fst (run s1 l2))%list, snd (run s1 l2)).
Proof.
  induction l1 as [|record rest IH]; intros s l2 rows s1.
  - simpl; intros [= <- <-]; simpl; apply surjective_pairing.
  - rewrite <- app_comm_cons, !run_cons.
    destruct (step s record) as [s' w|e]; [|discriminate].
    intros H.
    assert (Hr : run s' rest = (fst (run s' rest), inl s1)).
    { rewrite (surjective_pairing (run s' rest)) at 1; f_equal.
      now inversion H. }
    rewrite (IH s' l2 _ s1 Hr); simpl.
    destruct w; inversion H; reflexivity.
Qed.

Lemma main_app_raise (pre : list string) rows s record rest :
  run init pre = (rows, inl s) ->
  step s record = Raise IndexError ->
  main (pre ++ record :: rest) = (header :: rows, Some IndexError).
Proof.
  intros Hpre Hstep; unfold main.
  rewrite (run_app pre init (record :: rest) rows s Hpre).
  rewrite (run_raise_head s record rest IndexError Hstep); simpl.
  now rewrite app_nil_r.
Qed.

(** A completion marker with fewer than three tokens raises, whatever the
    state: the token is read (line 35) before [datacenter] is looked at. *)
Lemma short_completion_raises (s : state) logtime message :
  marker_of message = CompletionMarker ->
  (List.length (Str.split message) < 3)%nat ->
  on_entry s logtime message = Raise IndexError.
Proof.
  intros Hm Hlen; unfold on_entry; rewrite Hm.
  assert (H : nth_error (Str.split message) 2 = None)
    by (apply nth_error_None; lia).
  now rewrite H.
Qed.

Lemma short_start_raises (s : state) logtime message :
  marker_of message = StartMarker ->
  (List.length (Str.split message) < 9)%nat ->
  on_entry s logtime message = Raise IndexError.
Proof.
  intros Hm Hlen; unfold on_entry; rewrite Hm.
  assert (H : nth_error (Str.split message) 8 = None)
    by (apply nth_error_None; lia).
  rewrite H; now destruct (nth_error (Str.split message) 3).
Qed.

(** A start marker with its tokens 3 and 8 (lines 27-30). *)
Lemma step_start (s : state) (record : string) logtime message dc rq :
  log_entry record = Some (logtime, message) ->
  marker_of message = StartMarker ->
  nth_error (Str.split message) 3 = Some dc ->
  nth_error (Str.split message) 8 = Some rq ->
  step s record
  = Continue (mkState (Some dc) (filename s) (Some logtime) (Some rq)) None.
Proof.
  intros He Hm H3 H8.
  rewrite (step_entry s record _ _ He); unfold on_entry.
  now rewrite Hm, H3, H8.
Qed.

(** ** Lines that are passed over *)

(** C4. A record that does not split into three parts, or whose first two
    parts are not a time stamp in the format YYYY/MM/DD HH:MM:SS, writes
    nothing, raises nothing and leaves all four variables as they were;
    the loop goes on as if the record were not there. *)
Theorem malformed_line_is_skipped (s : state) (record : string) :
  (List.length (Str.split_max 2 record) < 3)%nat
  \/ (exists rdate rtime message,
        Str.split_max 2 record = [rdate; rtime; message]
        /\ datetime.strptime (rdate ++ " " ++ rtime) = None) ->
  step s record = Continue s None
  /\ forall rest, run s (record :: rest) = run s rest.
Proof.
  intros H.
  assert (Hs : step s record = Continue s None).
  { apply step_skip; unfold log_entry.
    destruct H as [Hlen | (rdate & rtime & message & Hp & Ht)].
    - destruct (Str.split_max 2 record) as [|a [|b [|c [|d l]]]];
        simpl in Hlen; try reflexivity; lia.
    - now rewrite Hp, Ht. }
  split; [exact Hs|].
  intros rest; now apply run_skip_head.
Qed.

Lemma malformed_line_is_skipped_witness :
  step (mkState (Some "DCA") "/f" None (Some "REQ_A")) line_noise
  = Continue (mkState (Some "DCA") "/f" None (Some "REQ_A")) None
  /\ step init line_bad_date = Continue init None.
Proof.
  split.
  - apply (malformed_line_is_skipped _ line_noise).
    right; exists "---", "log", ("rotated ---" ++ LF).
    split; vm_compute; reflexivity.
  - apply (malformed_line_is_skipped init line_bad_date).
    right; exists "2024/02/30", "10:00:07", ("Returning status 2000 OK" ++ LF).
    split; vm_compute; reflexivity.
Defined.

(** ** Markers that are too short *)

(** C5. A start marker whose message has fewer than 9 tokens, and a
    completion marker whose message has fewer than 3, raise [IndexError];
    the exception is not caught, so the loop stops there and [main] ends
    with it, the rows written so far being kept. *)
Theorem malformed_marker_raises (s : state) (record : string) logtime message :
  log_entry record = Some (logtime, message) ->
  (marker_of message = StartMarker
   /\ (List.length (Str.split message) < 9)%nat)
  \/ (marker_of message = CompletionMarker
      /\ (List.length (Str.split message) < 3)%nat) ->
  step s record = Raise IndexError
  /\ (forall rest, run s (record :: rest) = ([], inr IndexError))
  /\ (forall pre rows rest,
        run init pre = (rows, inl s) ->
        main (pre ++ record :: rest) = (header :: rows, Some IndexError)).
Proof.
  intros He H.
  assert (Hs : step s record = Raise IndexError).
  { rewrite (step_entry s record _ _ He).
    destruct H as [[Hm Hl] | [Hm Hl]];
      [now apply short_start_raises | now apply short_completion_raises]. }
  split; [exact Hs|split].
  - intros rest; now apply run_raise_head.
  - intros pre rows rest Hpre; now apply (main_app_raise pre rows s).
Qed.

Lemma malformed_marker_raises_witness :
  step init line_short_start = Raise IndexError
  /\ main (line_short_start :: scenario_A) = ([header], Some IndexError).
Proof.
  assert (He : log_entry line_short_start
               = Some (datetime.mk 2024 1 15 10 0 0,
                       "Running getData for DCA" ++ LF))
    by (vm_compute; reflexivity).
  assert (Hk : marker_of ("Running getData for DCA" ++ LF) = StartMarker
               /\ (List.length (Str.split ("Running getData for DCA" ++ LF)) < 9)%nat)
    by (split; [vm_compute; reflexivity | vm_compute; lia]).
  destruct (malformed_marker_raises init line_short_start _ _ He (or_introl Hk))
    as (H1 & _ & H3).
  split; [exact H1|].
  apply (H3 [] [] scenario_A); reflexivity.
Defined.


(** C10. The status token is taken from the completion message before
    [datacenter] is tested: with no request pending, a completion marker of
    fewer than 3 tokens still raises [IndexError] and stops the loop; it is
    not dropped the way a complete marker would be. *)
Theorem status_token_is_read_first (s : state) (record : string)
    logtime message :
  datacenter s = None ->
  log_entry record = Some (logtime, message) ->
  marker_of message = CompletionMarker ->
  (List.length (Str.split message) < 3)%nat ->
  step s record = Raise IndexError
  /\ step s record <> Continue s None
  /\ forall rest, run s (record :: rest) = ([], inr IndexError).
Proof.
  intros _ He Hm Hlen.
  assert (Hs : step s record = Raise IndexError)
    by (rewrite (step_entry s record _ _ He);
        now apply short_completion_raises).
  split; [exact Hs|split].
  - rewrite Hs; discriminate.
  - intros rest; now apply run_raise_head.
Qed.

Lemma status_token_is_read_first_witness :
  datacenter init = None
  /\ step init line_short_done = Raise IndexError
  /\ run init (line_short_done :: scenario_A) = ([], inr IndexError).
Proof.
  split; [reflexivity|].
  destruct (status_token_is_read_first init line_short_done
              (datetime.mk 2024 1 15 10 0 7) ("Returning status" ++ LF))
    as (H1 & _ & H3);
    [reflexivity | vm_compute; reflexivity | vm_compute; reflexivity
    | vm_compute; lia | ].
  split; [exact H1 | apply H3].
Defined.

(** ** Completion markers *)

(** C6. A completion marker with its three tokens, met while [datacenter]
    is [None], writes nothing, raises nothing and leaves the state as it
    was; the rest of the log is processed as if the marker were not there,
    also when no start marker came before it. *)
Theorem completion_without_request_is_dropped (s : state) (record : string)
    logtime message :
  datacenter s = None ->
  log_entry record = Some (logtime, message) ->
  marker_of message = CompletionMarker ->
  (3 <= List.length (Str.split message))%nat ->
  step s record = Continue s None
  /\ (forall rest, run s (record :: rest) = run s rest)
  /\ (forall pre rows rest,
        run init pre = (rows, inl s) ->
        main (pre ++ record :: rest) = main (pre ++ rest)).
Proof.
  intros Hd He Hm Hlen.
  assert (Hs : step s record = Continue s None).
  { rewrite (step_entry s record _ _ He); unfold on_entry; rewrite Hm.
    destruct (nth_error (Str.split message) 2) eqn:Hn.
    - now rewrite Hd.
    - apply nth_error_None in Hn; lia. }
  split; [exact Hs|split].
  - intros rest; now apply run_skip_head.
  - intros pre rows rest Hpre; unfold main.
    rewrite (run_app pre init (record :: rest) rows s Hpre).
    rewrite (run_app pre init rest rows s Hpre).
    now rewrite (run_skip_head s record rest Hs).
Qed.

Lemma completion_without_request_is_dropped_witness :
  step init line_done = Continue init None
  /\ main (line_done :: scenario_A) = main scenario_A.
Proof.
  destruct (completion_without_request_is_dropped init line_done
              (datetime.mk 2024 1 15 10 0 7)
              ("Returning status 2000 OK" ++ LF))
    as (H1 & _ & H3);
    [reflexivity | vm_compute; reflexivity | vm_compute; reflexivity
    | vm_compute; lia | ].
  split; [exact H1 | apply (H3 [] [] scenario_A); reflexivity].
Defined.

(** What a completion marker does when a request is pending, in a state
    whose variables are bound. *)
Lemma completion_emits (s : state) logtime message tok dc :
  bound s ->
  datacenter s = Some dc ->
  marker_of message = CompletionMarker ->
  nth_error (Str.split message) 2 = Some tok ->
  exists st rq,
    starttime s = Some st /\ request s = Some rq
    /\ on_entry s logtime message
       = Continue (mkState None EmptyString (Some st) (Some rq))
           (Some [datetime.strftime st; dc; rq; filename s; Str.take 4 tok;
                  datetime.str_float
                    (datetime.abs_seconds logtime - datetime.abs_seconds st)]).
Proof.
  intros Hb Hd Hm Hn.
  destruct Hb as [Hst Hrq]; [rewrite Hd; discriminate|].
  destruct (starttime s) as [st|] eqn:Est; [|contradiction].
  destruct (request s) as [rq|] eqn:Erq; [|contradiction].
  exists st, rq; repeat split.
  unfold on_entry; rewrite Hm, Hn, Hd, Est, Erq, total_seconds_sub.
  reflexivity.
Qed.

(** Scenario A does not give the row with DC1 and REQ123: counted from 0
    in the message, token 3 is [from] and token 8 is [X]. And a start time
    before the year 1000 is not written with four digits for the year. *)
Lemma scenario_A_row_differs :
  fst (run init scenario_A)
  <> [["2024-01-15 10:00:00"; "DC1"; "REQ123"; "/data/abc.dat"; "2000"; "5.0"]]
  /\ nth_error
       (Str.split "Running getData req from site DC1 to node X for REQ123 now")
       3 = Some "from"
  /\ nth_error
       (Str.split "Running getData req from site DC1 to node X for REQ123 now")
       8 = Some "X"
  /\ fst (run init [line_start_999; line_done_999])
     = [["999-01-15 10:00:00"; "DCA"; "REQ_A"; EmptyString; "2000"; "7.0"]]
  /\ matches timestamp_pattern "999-01-15 10:00:00" = false.
Proof.
  split; [vm_compute; discriminate|].
  repeat (split; [vm_compute; reflexivity|]).
  vm_compute; reflexivity.
Qed.

(** C3, amended. A completion marker met while a request is pending writes
    one row: the start time in the format %Y-%m-%d %H:%M:%S, which is
    YYYY-MM-DD HH:MM:SS from the year 1000 on, the pending data centre
    and request, the current file name, the first four characters of token
    2 of the message, and the seconds from start to completion as text;
    then [datacenter] is [None] and [filename] is empty. Scenario A gives
    the one row 2024-01-15 10:00:00,from,X,/data/abc.dat,2000,5.0. *)
Theorem completion_writes_one_row :
  (forall (s : state) (record : string) logtime message tok dc,
      reachable s ->
      datacenter s = Some dc ->
      log_entry record = Some (logtime, message) ->
      marker_of message = CompletionMarker ->
      nth_error (Str.split message) 2 = Some tok ->
      exists st rq s',
        starttime s = Some st /\ request s = Some rq
        /\ (1000 <= datetime.year st ->
            matches timestamp_pattern (datetime.strftime st) = true)
        /\ step s record
           = Continue s'
               (Some [datetime.strftime st; dc; rq; filename s; Str.take 4 tok;
                      datetime.str_float
                        (datetime.abs_seconds logtime
                         - datetime.abs_seconds st)])
        /\ datacenter s' = None /\ filename s' = EmptyString
        /\ forall rest,
             fst (run s (record :: rest))
             = [datetime.strftime st; dc; rq; filename s; Str.take 4 tok;
                datetime.str_float
                  (datetime.abs_seconds logtime - datetime.abs_seconds st)]
               :: fst (run s' rest))
  /\ fst (run init scenario_A)
     = [["2024-01-15 10:00:00"; "from"; "X"; "/data/abc.dat"; "2000"; "5.0"]]
  /\ csv_text (fst (run init scenario_A))
     = "2024-01-15 10:00:00,from,X,/data/abc.dat,2000,5.0"
       ++ csv.lineterminator.
Proof.
  split; [|split; vm_compute; reflexivity].
  intros s record logtime message tok dc Hr Hd He Hm Hn.
  destruct (completion_emits s logtime message tok dc
              (reachable_bound s Hr) Hd Hm Hn) as (st & rq & Hst & Hrq & Ho).
  exists st, rq, (mkState None EmptyString (Some st) (Some rq)).
  rewrite (step_entry s record _ _ He), Ho.
  split; [exact Hst|split; [exact Hrq|split]].
  - intros Hy; apply strftime_shape;
      [exact (reachable_starttime_valid s st Hr Hst)|exact Hy].
  - repeat split.
    intros rest; rewrite run_cons, (step_entry s record _ _ He), Ho.
    reflexivity.
Qed.

Lemma completion_writes_one_row_witness :
  exists s',
    step (mkState (Some "DCA") "/f" (Some (datetime.mk 2024 1 15 10 0 0))
            (Some "REQ_A")) line_done
    = Continue s'
        (Some ["2024-01-15 10:00:00"; "DCA"; "REQ_A"; "/f"; "2000"; "7.0"])
    /\ datacenter s' = None /\ filename s' = EmptyString.
Proof.
  destruct (proj1 completion_writes_one_row
              (mkState (Some "DCA") "/f" (Some (datetime.mk 2024 1 15 10 0 0))
                 (Some "REQ_A"))
              line_done (datetime.mk 2024 1 15 10 0 7)
              ("Returning status 2000 OK" ++ LF) "2000" "DCA")
    as (st & rq & s' & Hst & Hrq & _ & Hs & Hd & Hf & _).
  - exists [line_start_A;
            "2024/01/15 10:00:01 Retrieving file /f" ++ LF], [].
    vm_compute; reflexivity.
  - reflexivity.
  - vm_compute; reflexivity.
  - vm_compute; reflexivity.
  - vm_compute; reflexivity.
  - exists s'; split; [|split; assumption].
    simpl in Hst, Hrq; injection Hst as <-; injection Hrq as <-.
    exact Hs.
Defined.

(** ** Start markers *)

(** A start marker does not empty [filename]: after a file marker met with
    no request pending, the start marker leaves the stored name in place. *)
Lemma start_marker_keeps_filename :
  run init [line_file] = ([], inl (mkState None "/old/stale.dat" None None))
  /\ kind line_start_A = StartMarker
  /\ step (mkState None "/old/stale.dat" None None) line_start_A
     = Continue (mkState (Some "DCA") "/old/stale.dat"
                   (Some (datetime.mk 2024 1 15 10 0 0)) (Some "REQ_A")) None
  /\ ~ (forall (s : state) (record : string) logtime message dc rq,
          log_entry record = Some (logtime, message) ->
          marker_of message = StartMarker ->
          nth_error (Str.split message) 3 = Some dc ->
          nth_error (Str.split message) 8 = Some rq ->
          step s record
          = Continue (mkState (Some dc) EmptyString (Some logtime) (Some rq))
              None).
Proof.
  split; [vm_compute; reflexivity|].
  split; [vm_compute; reflexivity|].
  split; [vm_compute; reflexivity|].
  intros H.
  specialize (H (mkState None "/old/stale.dat" None None) line_start_A
                (datetime.mk 2024 1 15 10 0 0)
                ("Running getData for DCA file type obs request REQ_A" ++ LF)
                "DCA" "REQ_A").
  vm_compute in H.
  specialize (H eq_refl eq_refl eq_refl eq_refl); discriminate H.
Qed.

(** C1, amended. A start marker with a valid time stamp and the tokens 3
    and 8 in its message sets [datacenter] to token 3, [request] to token 8
    and [starttime] to the time stamp of the line, writes nothing, and
    leaves [filename] as it was. *)
Theorem start_marker_sets_request (s : state) (record : string)
    logtime message dc rq :
  log_entry record = Some (logtime, message) ->
  marker_of message = StartMarker ->
  nth_error (Str.split message) 3 = Some dc ->
  nth_error (Str.split message) 8 = Some rq ->
  exists s',
    step s record = Continue s' None
    /\ datacenter s' = Some dc /\ request s' = Some rq
    /\ starttime s' = Some logtime /\ filename s' = filename s.
Proof.
  intros He Hm H3 H8.
  exists (mkState (Some dc) (filename s) (Some logtime) (Some rq)).
  rewrite (step_start s record logtime message dc rq He Hm H3 H8).
  repeat split.
Qed.

Lemma start_marker_sets_request_witness :
  exists s',
    step init line_start_A = Continue s' None
    /\ datacenter s' = Some "DCA" /\ request s' = Some "REQ_A"
    /\ starttime s' = Some (datetime.mk 2024 1 15 10 0 0)
    /\ filename s' = filename init.
Proof.
  apply (start_marker_sets_request init line_start_A
           (datetime.mk 2024 1 15 10 0 0)
           ("Running getData for DCA file type obs request REQ_A" ++ LF));
    vm_compute; reflexivity.
Defined.

(** ** The stored file name *)

Lemma kind_entry (record : string) logtime message :
  log_entry record = Some (logtime, message) ->
  kind record = marker_of message /\ logtime_of record = Some logtime.
Proof. intros H; unfold kind, logtime_of; rewrite H; split; reflexivity. Qed.

(** Only a file marker, and the writing of a row, change [filename]. *)
Lemma step_keeps_filename (s s' : state) (record : string) :
  kind record <> FileMarker ->
  step s record = Continue s' None ->
  filename s' = filename s.
Proof.
  intros Hk; rewrite step_unfold.
  destruct (log_entry record) as [[logtime message]|] eqn:He;
    [|now intros [= <-]].
  destruct (kind_entry record _ _ He) as [Hkm _]; rewrite Hkm in Hk.
  unfold on_entry.
  destruct (marker_of message); [| contradiction | |now intros [= <-]].
  - destruct (nth_error (Str.split message) 3); [|discriminate].
    destruct (nth_error (Str.split message) 8); [|discriminate].
    now intros [= <-].
  - destruct (nth_error (Str.split message) 2); [|discriminate].
    destruct (datacenter s); [|now intros [= <-]].
    destruct (starttime s), (request s); discriminate.
Qed.

Lemma run_nil_rows (s : state) (record : string) (rest : list string) fin :
  run s (record :: rest) = ([], fin) ->
  fin = inr IndexError \/ fin = inr ValueError \/ fin = inr UnboundLocalError
  \/ exists s1, step s record = Continue s1 None /\ run s1 rest = ([], fin).
Proof.
  rewrite run_cons.
  destruct (step s record) as [s' w|e].
  - destruct w as [r|]; [discriminate|].
    intros H; right; right; right; exists s'; split; [reflexivity|].
    rewrite (surjective_pairing (run s' rest)); exact H.
  - intros [= <-]; destruct e; auto.
Qed.

Lemma run_silent_keeps_filename (mid : list string) :
  forall s s2,
    Forall (fun r => kind r <> FileMarker) mid ->
    run s mid = ([], inl s2) ->
    filename s2 = filename s.
Proof.
  induction mid as [|record rest IH]; intros s s2 Hall.
  - simpl; now intros [= <-].
  - intros H; inversion Hall as [|? ? Hk Hrest]; subst.
    destruct (run_nil_rows s record rest _ H)
      as [Hf | [Hf | [Hf | (s1 & Hs & Hr)]]]; try discriminate.
    rewrite (IH s1 s2 Hrest Hr).
    exact (step_keeps_filename s s1 record Hk Hs).
Qed.

(** What a step that writes a row looks like. *)
Lemma step_emits_inv (s s' : state) (record : string) row :
  step s record = Continue s' (Some row) ->
  exists tc m tok dc st rq,
    log_entry record = Some (tc, m) /\ marker_of m = CompletionMarker
    /\ nth_error (Str.split m) 2 = Some tok
    /\ datacenter s = Some dc /\ starttime s = Some st /\ request s = Some rq
    /\ s' = mkState None EmptyString (Some st) (Some rq)
    /\ row = [datetime.strftime st; dc; rq; filename s; Str.take 4 tok;
              datetime.str_float
                (datetime.abs_seconds tc - datetime.abs_seconds st)].
Proof.
  rewrite step_unfold.
  destruct (log_entry record) as [[tc m]|] eqn:He; [|discriminate].
  unfold on_entry.
  destruct (marker_of m) eqn:Hm; try discriminate.
  - destruct (nth_error (Str.split m) 3); [|discriminate].
    destruct (nth_error (Str.split m) 8); discriminate.
  - destruct (nth_error (Str.split m) 2) as [tok|] eqn:Hn; [|discriminate].
    destruct (datacenter s) as [dc|] eqn:Hd; [|discriminate].
    destruct (starttime s) as [st|] eqn:Hst; [|discriminate].
    destruct (request s) as [rq|] eqn:Hrq; [|discriminate].
    rewrite total_seconds_sub; intros [= <- <-].
    exists tc, m, tok, dc, st, rq; repeat split; assumption.
Qed.

(** A file name stored with no request pending does reach a row: neither
    the start marker nor the completion marker that is dropped clears it. *)
Lemma stale_filename_reaches_row :
  datacenter init = None
  /\ kind line_file = FileMarker
  /\ fst (run init [line_file; line_done_early; line_start_A;
                    line_done])
     = [["2024-01-15 10:00:00"; "DCA"; "REQ_A"; "/old/stale.dat"; "2000";
         "7.0"]]
  /\ fst (run init [line_done_early; line_start_A; line_done])
     = [["2024-01-15 10:00:00"; "DCA"; "REQ_A"; EmptyString; "2000"; "7.0"]]
  /\ ~ (forall (s : state) (record : string) (rest : list string),
          datacenter s = None ->
          kind record = FileMarker ->
          fst (run s (record :: rest)) = fst (run s rest)).
Proof.
  split; [reflexivity|].
  split; [vm_compute; reflexivity|].
  split; [vm_compute; reflexivity|].
  split; [vm_compute; reflexivity|].
  intros H.
  specialize (H init line_file [line_start_A; line_done] eq_refl).
  vm_compute in H; specialize (H eq_refl); discriminate H.
Qed.

(** C2, amended. A file name stored by a file marker while no request is
    pending stays stored through every later record that is not a file
    marker and writes no row, start markers and dropped completion markers
    included; the next row written carries it, and only then is [filename]
    emptied. *)
Theorem stale_filename_is_written (s s2 s3 : state) (record last : string)
    (mid : list string) logtime message row :
  datacenter s = None ->
  log_entry record = Some (logtime, message) ->
  marker_of message = FileMarker ->
  Forall (fun r => kind r <> FileMarker) mid ->
  run s (record :: mid) = ([], inl s2) ->
  step s2 last = Continue s3 (Some row) ->
  filename s2 = Str.strip (Str.drop 16 message)
  /\ nth_error row 3 = Some (Str.strip (Str.drop 16 message))
  /\ filename s3 = EmptyString.
Proof.
  intros _ He Hm Hall Hrun Hlast.
  destruct (run_nil_rows s record mid _ Hrun)
    as [Hf | [Hf | [Hf | (s1 & Hs & Hr)]]]; try discriminate.
  rewrite (step_entry s record _ _ He) in Hs.
  unfold on_entry in Hs; rewrite Hm in Hs; injection Hs as <-.
  pose proof (run_silent_keeps_filename mid _ s2 Hall Hr) as Hfn.
  simpl in Hfn.
  destruct (step_emits_inv s2 s3 last row Hlast)
    as (tc & m & tok & dc & st & rq & _ & _ & _ & _ & _ & _ & -> & ->).
  rewrite Hfn; repeat split.
Qed.

Lemma stale_filename_is_written_witness :
  exists s2 s3 row,
    run init [line_file; line_done_early; line_start_A]
    = ([], inl s2)
    /\ step s2 line_done = Continue s3 (Some row)
    /\ filename s2 = "/old/stale.dat"
    /\ nth_error row 3 = Some "/old/stale.dat"
    /\ filename s3 = EmptyString.
Proof.
  exists (mkState (Some "DCA") "/old/stale.dat"
            (Some (datetime.mk 2024 1 15 10 0 0)) (Some "REQ_A")).
  exists (mkState None EmptyString
            (Some (datetime.mk 2024 1 15 10 0 0)) (Some "REQ_A")).
  exists ["2024-01-15 10:00:00"; "DCA"; "REQ_A"; "/old/stale.dat"; "2000";
          "7.0"].
  split; [vm_compute; reflexivity|].
  split; [vm_compute; reflexivity|].
  apply (stale_filename_is_written init _ _ line_file line_done
           [line_done_early; line_start_A]
           (datetime.mk 2024 1 15 9 59 58)
           ("Retrieving file /old/stale.dat" ++ LF)).
  - reflexivity.
  - vm_compute; reflexivity.
  - vm_compute; reflexivity.
  - repeat constructor; vm_compute; discriminate.
  - vm_compute; reflexivity.
  - vm_compute; reflexivity.
Defined.

(** ** A start marker that follows another *)

Lemma step_quiet (s : state) (record : string) :
  quiet record ->
  exists fn,
    step s record
    = Continue (mkState (datacenter s) fn (starttime s) (request s)) None.
Proof.
  intros [Hk | Hk].
  - rewrite step_unfold; unfold kind in Hk.
    destruct (log_entry record) as [[logtime message]|]; [|discriminate].
    unfold on_entry; rewrite Hk; eexists; reflexivity.
  - exists (filename s); rewrite (step_no_marker s record Hk).
    now destruct s.
Qed.

Lemma run_quiet (mid : list string) :
  forall s, Forall quiet mid ->
    exists fn,
      run s mid
      = ([], inl (mkState (datacenter s) fn (starttime s) (request s))).
Proof.
  induction mid as [|record rest IH]; intros s Hall.
  - exists (filename s); simpl; now destruct s.
  - inversion Hall as [|? ? Hq Hrest]; subst.
    destruct (step_quiet s record Hq) as [fn Hs].
    destruct (IH (mkState (datacenter s) fn (starttime s) (request s)) Hrest)
      as [fn' Hr].
    exists fn'; rewrite run_cons, Hs, Hr; reflexivity.
Qed.

(** C7. A start marker for REQ_A, then a start marker for REQ_B with no
    completion marker between the two, then one completion marker: exactly
    one row is written, with the request and the start time of REQ_B; no
    row carries the request of REQ_A. Records that neither start nor
    complete a request may stand between the three. *)
Theorem second_start_abandons_first (s : state) (a b c : string)
    (mid1 mid2 : list string) tA mA dcA rqA tB mB dcB rqB tC mC tok :
  log_entry a = Some (tA, mA) -> marker_of mA = StartMarker ->
  nth_error (Str.split mA) 3 = Some dcA ->
  nth_error (Str.split mA) 8 = Some rqA ->
  log_entry b = Some (tB, mB) -> marker_of mB = StartMarker ->
  nth_error (Str.split mB) 3 = Some dcB ->
  nth_error (Str.split mB) 8 = Some rqB ->
  log_entry c = Some (tC, mC) -> marker_of mC = CompletionMarker ->
  nth_error (Str.split mC) 2 = Some tok ->
  Forall quiet mid1 -> Forall quiet mid2 ->
  exists fn s',
    run s (a :: mid1 ++ b :: mid2 ++ [c])
    = ([[datetime.strftime tB; dcB; rqB; fn; Str.take 4 tok;
         datetime.str_float
           (datetime.abs_seconds tC - datetime.abs_seconds tB)]], inl s')
    /\ (rqA <> rqB ->
        forall row, In row (fst (run s (a :: mid1 ++ b :: mid2 ++ [c]))) ->
                    nth_error row 2 <> Some rqA).
Proof.
  intros HeA HmA HA3 HA8 HeB HmB HB3 HB8 HeC HmC HC2 Hq1 Hq2.
  pose proof (step_start s a tA mA dcA rqA HeA HmA HA3 HA8) as HsA.
  destruct (run_quiet mid1
              (mkState (Some dcA) (filename s) (Some tA) (Some rqA)) Hq1)
    as [fn1 Hr1].
  cbn [datacenter starttime request] in Hr1.
  pose proof (step_start (mkState (Some dcA) fn1 (Some tA) (Some rqA)) b
                tB mB dcB rqB HeB HmB HB3 HB8) as HsB.
  cbn [filename] in HsB.
  destruct (run_quiet mid2 (mkState (Some dcB) fn1 (Some tB) (Some rqB)) Hq2)
    as [fn2 Hr2].
  cbn [datacenter starttime request] in Hr2.
  destruct (completion_emits (mkState (Some dcB) fn2 (Some tB) (Some rqB))
              tC mC tok dcB) as (st & rq & Hst & Hrq & Ho);
    [intros _; split; discriminate | reflexivity | exact HmC | exact HC2 |].
  cbn [starttime request filename] in Hst, Hrq, Ho.
  injection Hst as <-; injection Hrq as <-.
  assert (Hrun : run s (a :: mid1 ++ b :: mid2 ++ [c])
                 = ([[datetime.strftime tB; dcB; rqB; fn2; Str.take 4 tok;
                      datetime.str_float
                        (datetime.abs_seconds tC - datetime.abs_seconds tB)]],
                    inl (mkState None EmptyString (Some tB) (Some rqB)))).
  { rewrite run_cons, HsA.
    rewrite (run_app mid1 _ (b :: mid2 ++ [c]) [] _ Hr1).
    rewrite run_cons, HsB.
    rewrite (run_app mid2 _ [c] [] _ Hr2).
    rewrite run_cons, (step_entry _ c _ _ HeC), Ho.
    reflexivity. }
  exists fn2, (mkState None EmptyString (Some tB) (Some rqB)).
  split; [exact Hrun|].
  intros Hne row; rewrite Hrun; simpl.
  intros [<- | []]; simpl; congruence.
Qed.

Lemma second_start_abandons_first_witness :
  exists fn s',
    run init (line_start_A :: [line_file; line_noise]
              ++ line_start_B :: [] ++ [line_done])
    = ([["2024-01-15 10:00:03"; "DCB"; "REQ_B"; fn; "2000"; "4.0"]], inl s').
Proof.
  destruct (second_start_abandons_first init line_start_A line_start_B
              line_done [line_file; line_noise] []
              (datetime.mk 2024 1 15 10 0 0)
              ("Running getData for DCA file type obs request REQ_A" ++ LF)
              "DCA" "REQ_A"
              (datetime.mk 2024 1 15 10 0 3)
              ("Running getData for DCB file type obs request REQ_B" ++ LF)
              "DCB" "REQ_B"
              (datetime.mk 2024 1 15 10 0 7)
              ("Returning status 2000 OK" ++ LF) "2000")
    as (fn & s' & Hrun & _);
    [vm_compute; reflexivity | vm_compute; reflexivity
    | vm_compute; reflexivity | vm_compute; reflexivity
    | vm_compute; reflexivity | vm_compute; reflexivity
    | vm_compute; reflexivity | vm_compute; reflexivity
    | vm_compute; reflexivity | vm_compute; reflexivity
    | vm_compute; reflexivity | | | ].
  - apply Forall_cons; [left; vm_compute; reflexivity|].
    apply Forall_cons; [right; vm_compute; reflexivity|].
    apply Forall_nil.
  - apply Forall_nil.
  - exists fn, s'; vm_compute; vm_compute in Hrun; exact Hrun.
Defined.

(** ** Elapsed seconds *)

Lemma timeline_app (l1 l2 : list string) :
  timeline (l1 ++ l2) = (timeline l1 ++ timeline l2)%list.
Proof. unfold timeline; apply flat_map_app. Qed.

Lemma last_start_in_timeline (pre : list string) :
  forall acc ts,
    last_start acc pre = Some ts ->
    acc = Some ts \/ In (datetime.abs_seconds ts) (timeline pre).
Proof.
  induction pre as [|record rest IH]; intros acc ts; simpl.
  - now left.
  - intros H; apply IH in H.
    change (timeline (record :: rest))
      with ((match logtime_of record with
             | Some t => [datetime.abs_seconds t]
             | None => []
             end) ++ timeline rest)%list.
    destruct H as [H | H]; [|right; apply in_or_app; now right].
    destruct (kind record); auto.
    right; apply in_or_app; left; rewrite H; now left.
Qed.

Lemma sorted_before_last (l : list Z) (x : Z) :
  Sorted Z.le (l ++ [x]) -> forall y, In y l -> y <= x.
Proof.
  intros H; apply Sorted_StronglySorted in H;
    [|intros p q r; apply Z.le_trans].
  induction l as [|a l IH]; intros y [].
  - subst; simpl in H; inversion H as [|? ? _ Hall]; subst.
    rewrite Forall_forall in Hall; apply Hall, in_or_app; right; now left.
  - apply IH; [|assumption].
    simpl in H; now inversion H.
Qed.

(** C8. The seconds field of every row written is the difference, in
    seconds, between the time stamp of the completion line that writes the
    row and the time stamp of the last start marker before it, a whole
    number that a float holds exactly; it is not negative when the time
    stamps of the log do not decrease. *)
Theorem elapsed_seconds_is_time_difference (pre : list string) rows
    (s s' : state) (record : string) row :
  run init pre = (rows, inl s) ->
  step s record = Continue s' (Some row) ->
  exists tc ts,
    kind record = CompletionMarker
    /\ logtime_of record = Some tc
    /\ last_start None pre = Some ts
    /\ nth_error row 5
       = Some (datetime.str_float
                 (datetime.abs_seconds tc - datetime.abs_seconds ts))
    /\ datetime.total_seconds (datetime.sub tc ts)
       = datetime.abs_seconds tc - datetime.abs_seconds ts
    /\ Z.abs (datetime.abs_seconds tc - datetime.abs_seconds ts) < 2 ^ 53
    /\ (Sorted Z.le (timeline (pre ++ [record])) ->
        0 <= datetime.abs_seconds tc - datetime.abs_seconds ts).
Proof.
  intros Hpre Hstep.
  destruct (step_emits_inv s s' record row Hstep)
    as (tc & m & tok & dc & st & rq & He & Hm & _ & _ & Hst & _ & _ & ->).
  destruct (kind_entry record tc m He) as [Hk Ht].
  pose proof (run_starttime pre init rows s Hpre) as Hls.
  rewrite Hst in Hls; simpl in Hls.
  exists tc, st; repeat split; try congruence.
  - apply total_seconds_sub.
  - destruct (last_start_valid pre None st (eq_sym Hls)) as [H | H];
      [discriminate|].
    exact (proj1 (elapsed_fits_float tc st (log_entry_valid _ _ _ He) H)).
  - intros Hsorted.
    rewrite timeline_app in Hsorted.
    unfold timeline at 2 in Hsorted; simpl in Hsorted.
    rewrite Ht in Hsorted; simpl in Hsorted.
    destruct (last_start_in_timeline pre None st (eq_sym Hls)) as [H | H];
      [discriminate|].
    pose proof (sorted_before_last _ _ Hsorted _ H); lia.
Qed.

Lemma elapsed_seconds_is_time_difference_witness :
  Sorted Z.le (timeline ([line_start_A; line_start_B] ++ [line_done]))
  /\ exists tc ts,
       logtime_of line_done = Some tc
       /\ last_start None [line_start_A; line_start_B] = Some ts
       /\ nth_error ["2024-01-15 10:00:03"; "DCB"; "REQ_B"; EmptyString;
                     "2000"; "4.0"] 5
          = Some (datetime.str_float
                    (datetime.abs_seconds tc - datetime.abs_seconds ts))
       /\ 0 <= datetime.abs_seconds tc - datetime.abs_seconds ts.
Proof.
  assert (Hsorted :
            Sorted Z.le (timeline ([line_start_A; line_start_B] ++ [line_done]))).
  { vm_compute; repeat constructor; discriminate. }
  split; [exact Hsorted|].
  destruct (elapsed_seconds_is_time_difference [line_start_A; line_start_B] []
              (mkState (Some "DCB") EmptyString
                 (Some (datetime.mk 2024 1 15 10 0 3)) (Some "REQ_B"))
              (mkState None EmptyString
                 (Some (datetime.mk 2024 1 15 10 0 3)) (Some "REQ_B"))
              line_done
              ["2024-01-15 10:00:03"; "DCB"; "REQ_B"; EmptyString; "2000";
               "4.0"])
    as (tc & ts & _ & Ht & Hl & Hrow & _ & _ & Hpos);
    [vm_compute; reflexivity | vm_compute; reflexivity |].
  exists tc, ts; repeat split; try assumption.
  exact (Hpos Hsorted).
Defined.

(** ** Counting rows *)

Lemma count_kind_cons (k : marker) (record : string) (rest : list string) :
  count_kind k (record :: rest)
  = ((if marker_eqb (kind record) k then 1 else 0) + count_kind k rest)%nat.
Proof.
  unfold count_kind; simpl.
  destruct (marker_eqb (kind record) k); reflexivity.
Qed.

(** The three things a step that goes on can have done. *)
Lemma step_effect (s s' : state) (record : string) written :
  step s record = Continue s' written ->
  (kind record = StartMarker /\ written = None)
  \/ (kind record = CompletionMarker /\ written <> None
      /\ datacenter s <> None /\ datacenter s' = None
      /\ filename s' = EmptyString)
  \/ (kind record <> StartMarker /\ written = None
      /\ datacenter s' = datacenter s).
Proof.
  rewrite step_unfold; unfold kind.
  destruct (log_entry record) as [[logtime message]|];
    [|intros [= <- <-]; right; right; repeat split; discriminate].
  unfold on_entry.
  destruct (marker_of message).
  - destruct (nth_error (Str.split message) 3); [|discriminate].
    destruct (nth_error (Str.split message) 8); [|discriminate].
    intros [= <- <-]; left; split; reflexivity.
  - intros [= <- <-]; right; right; repeat split; discriminate.
  - destruct (nth_error (Str.split message) 2); [|discriminate].
    destruct (datacenter s) eqn:Hd;
      [|intros [= <- <-]; right; right; repeat split;
        [discriminate | assumption]].
    destruct (starttime s), (request s); try discriminate.
    intros [= <- <-]; right; left; repeat split; discriminate.
  - intros [= <- <-]; right; right; repeat split; discriminate.
Qed.

(** From any state: no more rows than completion markers, and no more than
    start markers, plus one when a request is pending on entry. *)
Lemma run_rows_bounded (logh : list string) :
  forall s,
    (List.length (fst (run s logh)) <= count_kind CompletionMarker logh)%nat
    /\ (List.length (fst (run s logh))
        <= count_kind StartMarker logh
           + match datacenter s with Some _ => 1 | None => 0 end)%nat.
Proof.
  induction logh as [|record rest IH]; intros s.
  - simpl; split; lia.
  - rewrite run_cons, !count_kind_cons.
    destruct (step s record) as [s' w|e] eqn:Hs; [|simpl; split; lia].
    destruct (IH s') as [IHc IHs].
    destruct (step_effect s s' record w Hs)
      as [[Hk ->] | [(Hk & Hw & Hd & Hd' & _) | (Hk & -> & Hd)]];
      simpl fst.
    + rewrite Hk; simpl marker_eqb.
      destruct (datacenter s'), (datacenter s); split; lia.
    + rewrite Hk; simpl marker_eqb; rewrite Hd' in IHs.
      destruct w as [r|]; [|contradiction]; simpl List.length.
      destruct (datacenter s); [|contradiction]; split; lia.
    + rewrite Hd in IHs.
      destruct (kind record); try contradiction; simpl marker_eqb;
        split; lia.
Qed.

(** C9. [main] writes no more rows than the log has completion markers,
    and no more than it has start markers. A row is written only while
    [datacenter] is not [None], and writing it sets [datacenter] to [None],
    so that from there on the rows are again bounded by the start markers
    still to come. *)
Theorem rows_bounded_by_markers :
  (forall logh : list string,
      (List.length (fst (run init logh))
       <= count_kind CompletionMarker logh)%nat
      /\ (List.length (fst (run init logh))
          <= count_kind StartMarker logh)%nat)
  /\ (forall (s s' : state) (record : string) row,
        step s record = Continue s' (Some row) ->
        datacenter s <> None /\ datacenter s' = None
        /\ forall rest,
             (List.length (fst (run s' rest))
              <= count_kind StartMarker rest)%nat).
Proof.
  split.
  - intros logh; destruct (run_rows_bounded logh init) as [Hc Hs].
    simpl in Hs; split; lia.
  - intros s s' record row Hstep.
    destruct (step_effect s s' record (Some row) Hstep)
      as [[_ H] | [(_ & _ & Hd & Hd' & _) | (_ & H & _)]];
      try discriminate.
    split; [exact Hd|split; [exact Hd'|]].
    intros rest; destruct (run_rows_bounded rest s') as [_ Hs].
    rewrite Hd' in Hs; lia.
Qed.

Lemma rows_bounded_by_markers_witness :
  datacenter (mkState (Some "DCA") "/f" (Some (datetime.mk 2024 1 15 10 0 0))
                (Some "REQ_A")) <> None
  /\ datacenter (mkState None EmptyString
                   (Some (datetime.mk 2024 1 15 10 0 0)) (Some "REQ_A"))
     = None
  /\ forall rest,
       (List.length
          (fst (run (mkState None EmptyString
                       (Some (datetime.mk 2024 1 15 10 0 0)) (Some "REQ_A"))
                  rest))
        <= count_kind StartMarker rest)%nat.
Proof.
  apply (proj2 rows_bounded_by_markers
           (mkState (Some "DCA") "/f" (Some (datetime.mk 2024 1 15 10 0 0))
              (Some "REQ_A"))
           (mkState None EmptyString
              (Some (datetime.mk 2024 1 15 10 0 0)) (Some "REQ_A"))
           line_done
           ["2024-01-15 10:00:00"; "DCA"; "REQ_A"; "/f"; "2000"; "7.0"]).
  vm_compute; reflexivity.
Defined.

(** * Further properties of [main] *)

(** ** Which exceptions stop the loop, and where *)







(** ** The output only grows *)

Lemma run_app_raise (l1 : list string) :
  forall s l2 rows e,
    run s l1 = (rows, inr e) -> run s (l1 ++ l2) = (rows, inr e).
Proof.
  induction l1 as [|record rest IH]; intros s l2 rows e.
  - simpl; discriminate.
  - rewrite <- app_comm_cons, !run_cons.
    destruct (step s record) as [s' w|e']; [|now intros H].
    intros H.
    assert (Hr : run s' rest = (fst (run s' rest), inr e)).
    { rewrite (surjective_pairing (run s' rest)) at 1; f_equal.
      now inversion H. }
    rewrite (IH s' l2 _ e Hr); simpl.
    destruct w; inversion H; reflexivity.
Qed.

(** X3. Rows are written in the order of the log and never taken back: the
    rows that [main] writes for the first records of a log are the first
    rows that it writes for the whole log, and once an exception has stopped
    it no later record adds a row. *)
Theorem output_only_grows (l1 l2 : list string) :
  (exists more, fst (main (l1 ++ l2)) = (fst (main l1) ++ more)%list)
  /\ (snd (main l1) <> None -> main (l1 ++ l2) = main l1).
Proof.
  unfold main.
  destruct (run init l1) as [rows [s1|e]] eqn:Hr.
  - rewrite (run_app l1 init l2 rows s1 Hr); simpl.
    split; [now exists (fst (run s1 l2))|intros H; now elim H].
  - rewrite (run_app_raise l1 init l2 rows e Hr); simpl.
    split; [exists []; now rewrite app_nil_r|reflexivity].
Qed.

Lemma output_only_grows_witness :
  main ([line_start_A; line_done; line_short_start] ++ scenario_A)
  = main [line_start_A; line_done; line_short_start].
Proof.
  apply (proj2 (output_only_grows [line_start_A; line_done; line_short_start]
                  scenario_A)).
  vm_compute; discriminate.
Defined.

(** ** What every row is made of *)

Section RowInvariant.

Variable Inv : state -> Prop.
Variable Fine : string -> Prop.
Variable Good : list string -> Prop.

Hypothesis step_keeps :
  forall s record s' written,
    Inv s -> Fine record -> step s record = Continue s' written ->
    Inv s' /\ (forall row, written = Some row -> Good row).

(** A property of rows that each step establishes, under an invariant of
    the state that each step keeps, holds of all the rows of a run; the
    records of the log may be taken from a given kind. *)
Lemma run_rows_invariant (logh : list string) :
  forall s, Forall Fine logh -> Inv s -> Forall Good (fst (run s logh)).
Proof.
  induction logh as [|record rest IH]; intros s Hall Hs.
  - constructor.
  - inversion Hall as [|? ? Hf Hrest]; subst.
    rewrite run_cons.
    destruct (step s record) as [s' w|e] eqn:Hstep; [|constructor].
    destruct (step_keeps s record s' w Hs Hf Hstep) as [Hs' Hrow].
    destruct w as [row|]; simpl.
    + constructor; [now apply Hrow | now apply IH].
    + now apply IH.
Qed.

End RowInvariant.

Lemma Forall_any (logh : list string) : Forall (fun _ => True) logh.
Proof. induction logh; constructor; auto. Qed.

(** X4. Every row that [main] writes has six fields, as the header has. *)
Theorem rows_have_six_fields (logh : list string) :
  Forall (fun row => List.length row = 6%nat) (fst (main logh)).
Proof.
  unfold main.
  pose proof (run_rows_invariant (fun _ => True) (fun _ => True)
                (fun row => List.length row = 6%nat)) as H.
  destruct (run init logh) as [rows fin] eqn:Hr; simpl.
  constructor; [reflexivity|].
  change rows with (fst (rows, fin)); rewrite <- Hr.
  apply H; [|apply Forall_any|exact I].
  intros s record s' w _ _ Hstep; split; [exact I|].
  intros row ->.
  destruct (step_emits_inv s s' record row Hstep)
    as (tc & m & tok & dc & st & rq & _ & _ & _ & _ & _ & _ & _ & ->).
  reflexivity.
Qed.

(** *** Tokens *)

Lemma break_token_no_space (s : string) :
  no_space (fst (Str.break_token s)) = true.
Proof.
  induction s as [|c s IH]; simpl; [reflexivity|].
  destruct (Str.isspace c) eqn:Hc; simpl; [reflexivity|].
  destruct (Str.break_token s); simpl in *; now rewrite Hc.
Qed.

Lemma split_max_tokens (n : nat) :
  forall s, (String.length s <= n)%nat ->
    Forall (fun t => is_token t = true) (Str.split_max n s).
Proof.
  induction n as [|n IH]; intros s Hn.
  - destruct s; [constructor|simpl in Hn; lia].
  - simpl.
    pose proof (lstrip_length s) as Hl.
    destruct (Str.lstrip s) as [|c r] eqn:Hr; [constructor|].
    pose proof (lstrip_head s c r Hr) as Hc.
    simpl Str.is_empty; cbv iota.
    pose proof (break_token_length r) as Hb.
    pose proof (break_token_no_space r) as Ht.
    simpl Str.break_token; rewrite Hc.
    destruct (Str.break_token r) as [tok rest]; simpl in Hb, Hl, Ht.
    constructor.
    + unfold is_token; simpl; now rewrite Hc, Ht.
    + apply IH; lia.
Qed.

(** What [split] returns are tokens. *)
Lemma split_tokens (s : string) :
  Forall (fun t => is_token t = true) (Str.split s).
Proof. apply split_max_tokens; lia. Qed.

Lemma nth_split_token (s : string) (i : nat) (t : string) :
  nth_error (Str.split s) i = Some t -> is_token t = true.
Proof.
  intros H; apply nth_error_In in H.
  pose proof (split_tokens s) as Hall; rewrite Forall_forall in Hall.
  now apply Hall.
Qed.

Lemma take_no_space (n : nat) :
  forall t, no_space t = true -> no_space (Str.take n t) = true.
Proof.
  induction n as [|n IH]; intros [|c r]; simpl; try reflexivity.
  intros H; apply andb_prop in H; destruct H as [Hc Hr].
  now rewrite Hc, (IH r Hr).
Qed.

Lemma take_length (n : nat) :
  forall t, (String.length (Str.take n t) <= n)%nat.
Proof.
  induction n as [|n IH]; intros [|c r]; simpl; try lia.
  specialize (IH r); lia.
Qed.

Lemma take_token (n : nat) (t : string) :
  is_token t = true -> is_token (Str.take (S n) t) = true.
Proof.
  unfold is_token; intros H; apply andb_prop in H; destruct H as [He Hs].
  destruct t as [|c r]; [discriminate|].
  change (Str.take (S n) (String c r)) with (String c (Str.take n r)).
  simpl in *; apply andb_prop in Hs; destruct Hs as [Hc Hr].
  now rewrite Hc, (take_no_space n r Hr).
Qed.

(** X5. In every row written, the data centre and the request are tokens
    of a start message, not empty and free of white space, and the status
    is such a token cut to four characters at most. *)
Theorem row_fields_are_tokens (logh : list string) :
  Forall (fun row =>
            exists dt dc rq fn status seconds,
              row = [dt; dc; rq; fn; status; seconds]
              /\ is_token dc = true /\ is_token rq = true
              /\ is_token status = true
              /\ (String.length status <= 4)%nat)
    (fst (run init logh)).
Proof.
  apply (run_rows_invariant
           (fun s => (forall dc, datacenter s = Some dc -> is_token dc = true)
                     /\ (forall rq, request s = Some rq -> is_token rq = true))
           (fun _ => True));
    [|apply Forall_any|split; discriminate].
  - intros s record s' w [Hdc Hrq] _ Hstep; split.
    + revert Hstep; rewrite step_unfold.
      destruct (log_entry record) as [[logtime message]|];
        [|intros [= <- _]; now split].
      unfold on_entry.
      destruct (marker_of message).
      * destruct (nth_error (Str.split message) 3) as [dc|] eqn:H3;
          [|discriminate].
        destruct (nth_error (Str.split message) 8) as [rq|] eqn:H8;
          [|discriminate].
        intros [= <- _]; simpl; split; intros x [= <-];
          eapply nth_split_token; eassumption.
      * intros [= <- _]; now split.
      * destruct (nth_error (Str.split message) 2); [|discriminate].
        destruct (datacenter s) eqn:Hd;
          [|intros [= <- _]; split; [intros dc; rewrite Hd; discriminate
                                    |exact Hrq]].
        destruct (starttime s), (request s); try discriminate.
        intros [= <- _]; simpl; split; [discriminate|exact Hrq].
      * intros [= <- _]; now split.
    + intros row ->.
      destruct (step_emits_inv s s' record row Hstep)
        as (tc & m & tok & dc & st & rq & _ & _ & Htok & Hd & _ & Hr & _ & ->).
      do 6 eexists; split; [reflexivity|].
      split; [now apply Hdc|].
      split; [now apply Hrq|].
      split; [|apply take_length].
      apply take_token; eapply nth_split_token; eassumption.
Qed.

(** *** The file name *)

Lemma lstrip_idem (s : string) : Str.lstrip (Str.lstrip s) = Str.lstrip s.
Proof.
  induction s as [|c s IH]; simpl; [reflexivity|].
  destruct (Str.isspace c) eqn:Hc; [exact IH|].
  simpl; now rewrite Hc.
Qed.

Lemma rstrip_idem (s : string) : Str.rstrip (Str.rstrip s) = Str.rstrip s.
Proof.
  induction s as [|c s IH]; simpl; [reflexivity|].
  destruct (Str.is_empty (Str.rstrip s) && Str.isspace c) eqn:Hc;
    [reflexivity|].
  simpl; now rewrite IH, Hc.
Qed.

Lemma lstrip_rstrip (t : string) :
  Str.lstrip t = t -> Str.lstrip (Str.rstrip t) = Str.rstrip t.
Proof.
  destruct t as [|c r]; [reflexivity|]; intros H.
  pose proof (lstrip_head _ c r H) as Hc.
  simpl; rewrite Hc, andb_false_r; simpl; now rewrite Hc.
Qed.

(** What [strip] returns has no white space left at either end. *)
Lemma strip_stripped (s : string) :
  Str.lstrip (Str.strip s) = Str.strip s
  /\ Str.rstrip (Str.strip s) = Str.strip s.
Proof.
  unfold Str.strip; split.
  - apply lstrip_rstrip, lstrip_idem.
  - apply rstrip_idem.
Qed.

(** X6. The file name of every row written has no white space at its
    beginning or at its end: stripping it again, on either side, changes
    nothing. The same holds of [filename] all along the run. *)
Theorem row_filename_is_stripped (logh : list string) :
  Forall (fun row =>
            exists fn, nth_error row 3 = Some fn
                       /\ Str.lstrip fn = fn /\ Str.rstrip fn = fn)
    (fst (run init logh))
  /\ forall rows s, run init logh = (rows, inl s) ->
                    Str.strip (filename s) = filename s.
Proof.
  assert (Hstep : forall s record s' w,
             (Str.lstrip (filename s) = filename s
              /\ Str.rstrip (filename s) = filename s) ->
             step s record = Continue s' w ->
             (Str.lstrip (filename s') = filename s'
              /\ Str.rstrip (filename s') = filename s')
             /\ (forall row, w = Some row ->
                   exists fn, nth_error row 3 = Some fn
                              /\ Str.lstrip fn = fn /\ Str.rstrip fn = fn)).
  { intros s record s' w Hfn Hs; split.
    - revert Hs; rewrite step_unfold.
      destruct (log_entry record) as [[logtime message]|];
        [|now intros [= <- _]].
      unfold on_entry.
      destruct (marker_of message).
      + destruct (nth_error (Str.split message) 3); [|discriminate].
        destruct (nth_error (Str.split message) 8); [|discriminate].
        now intros [= <- _].
      + intros [= <- _]; simpl; apply strip_stripped.
      + destruct (nth_error (Str.split message) 2); [|discriminate].
        destruct (datacenter s); [|now intros [= <- _]].
        destruct (starttime s), (request s); try discriminate.
        intros [= <- _]; simpl; now split.
      + now intros [= <- _].
    - intros row ->.
      destruct (step_emits_inv s s' record row Hs)
        as (tc & m & tok & dc & st & rq & _ & _ & _ & _ & _ & _ & _ & ->).
      exists (filename s); split; [reflexivity|exact Hfn]. }
  split.
  - apply (run_rows_invariant _ (fun _ => True) _
             (fun s record s' w Hi _ => Hstep s record s' w Hi));
      [apply Forall_any|now split].
  - assert (Hrun : forall l s rows s',
               (Str.lstrip (filename s) = filename s
                /\ Str.rstrip (filename s) = filename s) ->
               run s l = (rows, inl s') ->
               Str.lstrip (filename s') = filename s'
               /\ Str.rstrip (filename s') = filename s').
    { induction l as [|record rest IH]; intros s rows s' Hfn.
      - simpl; now intros [= _ <-].
      - rewrite run_cons.
        destruct (step s record) as [s1 w|e] eqn:Hs; [|discriminate].
        intros H.
        apply (IH s1 (fst (run s1 rest)) s');
          [exact (proj1 (Hstep s record s1 w Hfn Hs))|].
        rewrite (surjective_pairing (run s1 rest)) at 1; f_equal.
        now inversion H. }
    intros rows s Hr.
    destruct (Hrun logh init rows s) as [Hl Hrs]; [now split|exact Hr|].
    unfold Str.strip; now rewrite Hl, Hrs.
Qed.

Lemma row_filename_is_stripped_witness :
  run init [line_file] = ([], inl (mkState None "/old/stale.dat" None None))
  /\ Str.strip (filename (mkState None "/old/stale.dat" None None))
     = "/old/stale.dat".
Proof.
  assert (Hrun : run init [line_file]
                 = ([], inl (mkState None "/old/stale.dat" None None)))
    by (vm_compute; reflexivity).
  split; [exact Hrun|].
  exact (proj2 (row_filename_is_stripped [line_file]) [] _ Hrun).
Defined.

(** *** The start time *)

(** X7. In a log dated from the year 1000 on, the first field of every row
    written is the start time as 19 characters, dddd-dd-dd dd:dd:dd with
    decimal digits for d. *)
Theorem row_datetime_has_fixed_shape (logh : list string) :
  Forall four_digit_year logh ->
  Forall (fun row =>
            exists dt, nth_error row 0 = Some dt
                       /\ matches timestamp_pattern dt = true
                       /\ String.length dt = 19%nat)
    (fst (run init logh)).
Proof.
  assert (Hlen : forall p t, matches p t = true ->
                             String.length t = List.length p).
  { induction p as [|q p IH]; intros [|c t]; simpl; try discriminate.
    - reflexivity.
    - intros H; apply andb_prop in H; destruct H as [_ H].
      now rewrite (IH t H). }
  intros Hall.
  apply (run_rows_invariant
           (fun s => forall st, starttime s = Some st ->
                                datetime.valid st /\ 1000 <= datetime.year st)
           four_digit_year); [|exact Hall|discriminate].
  intros s record s' w Hv Hy Hstep; split.
  - intros st; rewrite (step_starttime s s' record w Hstep).
    unfold four_digit_year in Hy; revert Hy; unfold kind, logtime_of.
    destruct (log_entry record) as [[t m]|] eqn:He; [|intros _; apply Hv].
    destruct (marker_of m); try (intros _; apply Hv).
    simpl; intros Hy [= <-].
    split; [exact (log_entry_valid record t m He)|now apply Hy].
  - intros row ->.
    destruct (step_emits_inv s s' record row Hstep)
      as (tc & m & tok & dc & st & rq & _ & _ & _ & _ & Hst & _ & _ & ->).
    exists (datetime.strftime st); split; [reflexivity|].
    destruct (Hv st Hst) as [Hval Hyear].
    pose proof (strftime_shape st Hval Hyear) as Hm.
    split; [exact Hm|exact (Hlen _ _ Hm)].
Qed.

Lemma row_datetime_has_fixed_shape_witness :
  Forall (fun row =>
            exists dt, nth_error row 0 = Some dt
                       /\ matches timestamp_pattern dt = true
                       /\ String.length dt = 19%nat)
    (fst (run init scenario_A)).
Proof.
  apply (row_datetime_has_fixed_shape scenario_A).
  repeat (apply Forall_cons;
          [intros t Ht; vm_compute in Ht; injection Ht as <-;
           vm_compute; discriminate|]).
  apply Forall_nil.
Defined.

(** ** Whole requests *)

Lemma run_quiet_last_file (mid : list string) :
  forall s, Forall quiet mid ->
    run s mid
    = ([], inl (mkState (datacenter s) (last_file (filename s) mid)
                  (starttime s) (request s))).
Proof.
  induction mid as [|record rest IH]; intros s Hall.
  - simpl; now destruct s.
  - inversion Hall as [|? ? Hq Hrest]; subst.
    rewrite run_cons, step_unfold; cbn [last_file].
    destruct Hq as [Hk | Hk]; unfold kind in Hk;
      destruct (log_entry record) as [[logtime message]|];
      try discriminate; unfold on_entry; try rewrite Hk;
      rewrite (IH _ Hrest); try reflexivity.
Qed.

(** One request, from any state. *)
Lemma run_request (s : state) (a c : string) (mid : list string)
    tA mA dc rq tC mC tok :
  log_entry a = Some (tA, mA) -> marker_of mA = StartMarker ->
  nth_error (Str.split mA) 3 = Some dc ->
  nth_error (Str.split mA) 8 = Some rq ->
  Forall quiet mid ->
  log_entry c = Some (tC, mC) -> marker_of mC = CompletionMarker ->
  nth_error (Str.split mC) 2 = Some tok ->
  run s (a :: mid ++ [c])
  = ([[datetime.strftime tA; dc; rq; last_file (filename s) mid;
       Str.take 4 tok;
       datetime.str_float
         (datetime.abs_seconds tC - datetime.abs_seconds tA)]],
     inl (mkState None EmptyString (Some tA) (Some rq))).
Proof.
  intros HeA HmA H3 H8 Hq HeC HmC H2.
  rewrite run_cons, (step_start s a tA mA dc rq HeA HmA H3 H8).
  rewrite (run_app mid _ [c] [] _ (run_quiet_last_file mid _ Hq)).
  cbn [datacenter starttime request filename].
  rewrite run_cons, (step_entry _ c _ _ HeC).
  destruct (completion_emits
              (mkState (Some dc) (last_file (filename s) mid) (Some tA)
                 (Some rq)) tC mC tok dc)
    as (st & rq' & Hst & Hrq & Ho);
    [intros _; split; discriminate | reflexivity | exact HmC | exact H2 |].
  cbn [starttime request filename] in Hst, Hrq, Ho.
  injection Hst as <-; injection Hrq as <-.
  rewrite Ho; reflexivity.
Qed.

(** X8. A whole request, whatever the state it is met in: a start marker,
    then records that neither start nor complete a request, then a
    completion marker. One row is written; it has the start time, data
    centre and request of the start marker, the name of the last file
    marker in between (the name stored before when there is none), the
    status of the completion marker and the seconds between the two
    markers; [datacenter] is then [None] and [filename] empty. *)
Theorem request_writes_its_row (s : state) (a c : string) (mid : list string)
    tA mA dc rq tC mC tok :
  log_entry a = Some (tA, mA) -> marker_of mA = StartMarker ->
  nth_error (Str.split mA) 3 = Some dc ->
  nth_error (Str.split mA) 8 = Some rq ->
  Forall quiet mid ->
  log_entry c = Some (tC, mC) -> marker_of mC = CompletionMarker ->
  nth_error (Str.split mC) 2 = Some tok ->
  exists s',
    run s (a :: mid ++ [c])
    = ([[datetime.strftime tA; dc; rq; last_file (filename s) mid;
         Str.take 4 tok;
         datetime.str_float
           (datetime.abs_seconds tC - datetime.abs_seconds tA)]], inl s')
    /\ datacenter s' = None /\ filename s' = EmptyString.
Proof.
  intros HeA HmA H3 H8 Hq HeC HmC H2.
  exists (mkState None EmptyString (Some tA) (Some rq)).
  rewrite (run_request s a c mid tA mA dc rq tC mC tok
             HeA HmA H3 H8 Hq HeC HmC H2).
  repeat split.
Qed.

Lemma request_writes_its_row_witness :
  exists s',
    run init (line_start_A :: [line_noise; line_file; line_bad_date]
              ++ [line_done])
    = ([["2024-01-15 10:00:00"; "DCA"; "REQ_A"; "/old/stale.dat"; "2000";
         "7.0"]], inl s')
    /\ datacenter s' = None /\ filename s' = EmptyString.
Proof.
  destruct (request_writes_its_row init line_start_A line_done
              [line_noise; line_file; line_bad_date]
              (datetime.mk 2024 1 15 10 0 0)
              ("Running getData for DCA file type obs request REQ_A" ++ LF)
              "DCA" "REQ_A"
              (datetime.mk 2024 1 15 10 0 7)
              ("Returning status 2000 OK" ++ LF) "2000")
    as (s' & Hrun & Hd & Hf);
    [vm_compute; reflexivity | vm_compute; reflexivity
    | vm_compute; reflexivity | vm_compute; reflexivity
    | | vm_compute; reflexivity | vm_compute; reflexivity
    | vm_compute; reflexivity | ].
  - apply Forall_cons; [right; vm_compute; reflexivity|].
    apply Forall_cons; [left; vm_compute; reflexivity|].
    apply Forall_cons; [right; vm_compute; reflexivity|].
    apply Forall_nil.
  - exists s'; split; [|split; assumption].
    vm_compute; vm_compute in Hrun; exact Hrun.
Defined.

Lemma run_blocks (blocks : list (list string)) :
  Forall request_block blocks ->
  forall s, exists rows s',
    run s (concat blocks) = (rows, inl s')
    /\ List.length rows = List.length blocks.
Proof.
  induction 1 as [|b bs Hb Hbs IH]; intros s.
  - exists [], s; split; reflexivity.
  - destruct Hb as (a & mid & c & tA & mA & dc & rq & tC & mC & tok & ->
                    & HeA & HmA & H3 & H8 & Hq & HeC & HmC & H2).
    pose proof (run_request s a c mid tA mA dc rq tC mC tok
                  HeA HmA H3 H8 Hq HeC HmC H2) as Hr.
    destruct (IH (mkState None EmptyString (Some tA) (Some rq)))
      as (rows & s' & Hrun & Hlen).
    exists (([datetime.strftime tA; dc; rq; last_file (filename s) mid;
              Str.take 4 tok;
              datetime.str_float
                (datetime.abs_seconds tC - datetime.abs_seconds tA)]
             :: rows)), s'.
    cbn [concat].
    rewrite (run_app _ s (concat bs) _ _ Hr), Hrun; simpl.
    split; [reflexivity|now rewrite Hlen].
Qed.

(** X9. A log made of whole requests, one after the other, gives one row
    per request and no exception, the rows and the header apart. *)
Theorem one_row_per_request (blocks : list (list string)) :
  Forall request_block blocks ->
  exists rows,
    main (concat blocks) = (header :: rows, None)
    /\ List.length rows = List.length blocks.
Proof.
  intros H; destruct (run_blocks blocks H init) as (rows & s' & Hrun & Hlen).
  exists rows; unfold main; rewrite Hrun; now split.
Qed.

Lemma one_row_per_request_witness :
  exists rows,
    main (concat [[line_start_A; line_file; line_done];
                  [line_start_B; line_done]])
    = (header :: rows, None)
    /\ List.length rows = 2%nat.
Proof.
  apply (one_row_per_request [[line_start_A; line_file; line_done];
                              [line_start_B; line_done]]).
  apply Forall_cons; [|apply Forall_cons; [|apply Forall_nil]].
  - exists line_start_A, [line_file], line_done,
      (datetime.mk 2024 1 15 10 0 0),
      ("Running getData for DCA file type obs request REQ_A" ++ LF),
      "DCA", "REQ_A", (datetime.mk 2024 1 15 10 0 7),
      ("Returning status 2000 OK" ++ LF), "2000".
    split; [reflexivity|].
    do 4 (split; [vm_compute; reflexivity|]).
    split; [apply Forall_cons;
            [left; vm_compute; reflexivity|apply Forall_nil]|].
    do 2 (split; [vm_compute; reflexivity|]).
    vm_compute; reflexivity.
  - exists line_start_B, [], line_done,
      (datetime.mk 2024 1 15 10 0 3),
      ("Running getData for DCB file type obs request REQ_B" ++ LF),
      "DCB", "REQ_B", (datetime.mk 2024 1 15 10 0 7),
      ("Returning status 2000 OK" ++ LF), "2000".
    split; [reflexivity|].
    do 4 (split; [vm_compute; reflexivity|]).
    split; [apply Forall_nil|].
    do 2 (split; [vm_compute; reflexivity|]).
    vm_compute; reflexivity.
Defined.

(** ** White space at the head of a line *)

Lemma lstrip_app_space (ws s : string) :
  all_space ws = true -> Str.lstrip (ws ++ s) = Str.lstrip s.
Proof.
  induction ws as [|c ws IH]; simpl; [reflexivity|].
  intros H; apply andb_prop in H; destruct H as [Hc Hws].
  rewrite Hc; now apply IH.
Qed.

Lemma split_max_app_space (n : nat) (ws s : string) :
  all_space ws = true -> Str.split_max n (ws ++ s) = Str.split_max n s.
Proof.
  intros H; destruct n; simpl; now rewrite (lstrip_app_space ws s H).
Qed.

(** X10. White space in front of a record changes nothing: an indented
    line of the log is processed as the same line without the indent, in
    every state. *)
Theorem leading_space_is_ignored (s : state) (ws record : string) :
  all_space ws = true ->
  step s (ws ++ record) = step s record
  /\ forall rest, run s ((ws ++ record) :: rest) = run s (record :: rest).
Proof.
  intros H.
  assert (Hs : step s (ws ++ record) = step s record)
    by (unfold step; now rewrite (split_max_app_space 2 ws record H)).
  split; [exact Hs|].
  intros rest; now rewrite !run_cons, Hs.
Qed.

Lemma leading_space_is_ignored_witness :
  step init ("   " ++ line_start_A) = step init line_start_A.
Proof.
  apply (leading_space_is_ignored init "   " line_start_A).
  vm_compute; reflexivity.
Defined.
